(** * The download tracker of mangadex-downloader

    A shallow embedding of [mangadex_downloader/tracker.py] and the
    properties of its ledger: entity records, the validation pass run at
    load time, and the query and mutation operations of
    [DownloadTracker]. *)

From Stdlib Require Import ZArith Lia Ascii String.
From stdpp Require Import base option list strings sorting.

Local Open Scope string_scope.
Local Open Scope Z_scope.
Local Open Scope nat_scope.
Local Open Scope list_scope.

(** ** Python values read from the backing document

    What [json.loads] returns: [None], [bool], [int], [str], [list] and
    [dict].  A dict is kept as its items in insertion order (the order
    [json.dumps] writes them back in); the keys of a parsed dict are
    pairwise distinct.  Numbers are the integers: floats are left out. *)

Local Unset Elimination Schemes.
Inductive json : Type :=
| JNull
| JBool (b : bool)
| JInt (z : Z)
| JStr (s : string)
| JArr (l : list json)
| JObj (d : list (string * json)).
Local Set Elimination Schemes.

(** [d[k]] on the items of a dict. *)
Fixpoint assoc {A : Type} (k : string) (d : list (string * A)) : option A :=
  match d with
  | [] => None
  | (k', v) :: d' => if String.eqb k' k then Some v else assoc k d'
  end.

(** Python's [==] on these values.  [bool] is a subclass of [int], so
    [True == 1]; values of different types are otherwise unequal; lists
    compare element by element; dicts compare as sets of items. *)
Fixpoint py_eq (a b : json) {struct a} : bool :=
  match a, b with
  | JNull, JNull => true
  | JBool x, JBool y => Bool.eqb x y
  | JBool x, JInt z => Z.eqb (Z.b2z x) z
  | JInt z, JBool y => Z.eqb z (Z.b2z y)
  | JInt x, JInt y => Z.eqb x y
  | JStr s, JStr t => String.eqb s t
  | JArr l, JArr m =>
      (fix go (l m : list json) {struct l} : bool :=
         match l, m with
         | [], [] => true
         | x :: l', y :: m' => py_eq x y && go l' m'
         | _, _ => false
         end) l m
  | JObj d, JObj e =>
      Nat.eqb (length d) (length e) &&
      (fix go (d : list (string * json)) {struct d} : bool :=
         match d with
         | [] => true
         | (k, v) :: d' =>
             match assoc k e with
             | Some w => py_eq v w
             | None => false
             end && go d'
         end) d
  | _, _ => false
  end.

(** The two local loops of [py_eq], named. *)
Fixpoint list_eq {A B : Type} (eq : A -> B -> bool) (l : list A) (m : list B) : bool :=
  match l, m with
  | [], [] => true
  | x :: l', y :: m' => eq x y && list_eq eq l' m'
  | _, _ => false
  end.

Fixpoint items_in (d e : list (string * json)) : bool :=
  match d with
  | [] => true
  | (k, v) :: d' =>
      match assoc k e with
      | Some w => py_eq v w
      | None => false
      end && items_in d' e
  end.

(** An induction principle that reaches inside lists and dicts. *)
Section json_rect.
Variable P : json -> Prop.
Hypothesis HNull : P JNull.
Hypothesis HBool : forall b, P (JBool b).
Hypothesis HInt : forall z, P (JInt z).
Hypothesis HStr : forall s, P (JStr s).
Hypothesis HArr : forall l, Forall P l -> P (JArr l).
Hypothesis HObj : forall d, Forall (fun kv => P (snd kv)) d -> P (JObj d).
Fixpoint json_nested_ind (j : json) : P j :=
  match j with
  | JNull => HNull
  | JBool b => HBool b
  | JInt z => HInt z
  | JStr s => HStr s
  | JArr l =>
      HArr l ((fix go (l : list json) : Forall P l :=
                 match l with
                 | [] => @List.Forall_nil _ _
                 | x :: l' => @List.Forall_cons _ P x l' (json_nested_ind x) (go l')
                 end) l)
  | JObj d =>
      HObj d ((fix go (d : list (string * json)) : Forall (fun kv => P (snd kv)) d :=
                 match d with
                 | [] => @List.Forall_nil _ _
                 | kv :: d' =>
                     @List.Forall_cons _ (fun kv => P (snd kv)) kv d'
                       (json_nested_ind (snd kv)) (go d')
                 end) d)
  end.
End json_rect.

(** ** Exceptions and results *)

Inductive exn : Type :=
| KeyError (key : string)
| TypeError
| AttributeError
| Exception (filename : string).

Inductive res (A : Type) : Type :=
| Ok (a : A)
| Raise (e : exn).
Arguments Ok {A} a.
Arguments Raise {A} e.

#[export] Instance res_ret : MRet res := fun A a => Ok a.
#[export] Instance res_bind : MBind res := fun A B f m =>
  match m with
  | Ok a => f a
  | Raise e => Raise e
  end.

(** [data[k]] for a parsed value: a dict raises [KeyError] on an absent
    key; a list or a str takes integer indices only, and nothing else is
    subscriptable. *)
Definition subscript (data : json) (k : string) : res json :=
  match data with
  | JObj d =>
      match assoc k d with
      | Some v => Ok v
      | None => Raise (KeyError k)
      end
  | _ => Raise TypeError
  end.

(** [for i in v]: a list yields its elements, a dict its keys, a str
    its characters (one-character strs); other values are not
    iterable. *)
Fixpoint chars (s : string) : list json :=
  match s with
  | EmptyString => []
  | String c s' => JStr (String c EmptyString) :: chars s'
  end.

Definition py_iter (v : json) : res (list json) :=
  match v with
  | JArr l => Ok l
  | JObj d => Ok (map (fun kv => JStr (fst kv)) d)
  | JStr s => Ok (chars s)
  | _ => Raise TypeError
  end.

(** ** Entity records *)

Record ImageInfo : Type := {
  im_name : json;
  im_hash : json;
  im_chapter_id : json
}.

Record ChapterInfo : Type := {
  ch_name : json;
  ch_id : json
}.

Record FileInfo : Type := {
  fi_name : json;
  fi_id : json;
  fi_hash : json;
  fi_completed : json;
  fi_images : option (list ImageInfo);
  fi_chapters : option (list ChapterInfo)
}.

(** [_ImageInfo.__init__] *)
Definition _ImageInfo (data : json) : res ImageInfo :=
  name ← subscript data "name";
  hash ← subscript data "hash";
  chapter_id ← subscript data "chapter_id";
  mret {| im_name := name; im_hash := hash; im_chapter_id := chapter_id |}.

(** [_ChapterInfo.__init__] *)
Definition _ChapterInfo (data : json) : res ChapterInfo :=
  name ← subscript data "name";
  id ← subscript data "id";
  mret {| ch_name := name; ch_id := id |}.

(** The comprehension [[f(i) for i in v]]. *)
Definition comprehension {A : Type} (f : json -> res A) (v : json) : res (list A) :=
  l ← py_iter v; mapM f l.

(** [f(v) if v is not None else v] *)
Definition if_not_None {A : Type} (f : json -> res A) (v : json) : res (option A) :=
  match v with
  | JNull => Ok None
  | _ => a ← f v; mret (Some a)
  end.

(** [_FileInfo.__init__] *)
Definition _FileInfo (data : json) : res FileInfo :=
  name ← subscript data "name";
  id ← subscript data "id";
  hash ← subscript data "hash";
  completed ← subscript data "completed";
  images ← subscript data "images";
  images' ← if_not_None (comprehension _ImageInfo) images;
  chapters ← subscript data "chapters";
  chapters' ← if_not_None (comprehension _ChapterInfo) chapters;
  mret {| fi_name := name; fi_id := id; fi_hash := hash; fi_completed := completed;
          fi_images := images'; fi_chapters := chapters' |}.

(** [_ImageInfo.__eq__]: the two [data] dicts carry the same three keys,
    so they are equal when the three values are. *)
Definition ImageInfo_eq (a b : ImageInfo) : bool :=
  py_eq (im_name a) (im_name b) && py_eq (im_hash a) (im_hash b)
  && py_eq (im_chapter_id a) (im_chapter_id b).

(** [_ChapterInfo.__eq__] against another [_ChapterInfo] ... *)
Definition ChapterInfo_eq (a b : ChapterInfo) : bool :=
  py_eq (ch_name a) (ch_name b) && py_eq (ch_id a) (ch_id b).

(** ... and against a [str]. *)
Definition ChapterInfo_eq_str (a : ChapterInfo) (o : string) : bool :=
  py_eq (ch_id a) (JStr o).

(** [==] of two attributes that are [None] or a list of records. *)
Definition opt_list_eq {A : Type} (eq : A -> A -> bool) (a b : option (list A)) : bool :=
  match a, b with
  | None, None => true
  | Some l, Some m => list_eq eq l m
  | _, _ => false
  end.

(** [_FileInfo.__eq__]: [self.data == o.data] on all six entries. *)
Definition FileInfo_eq (a b : FileInfo) : bool :=
  py_eq (fi_name a) (fi_name b) && py_eq (fi_id a) (fi_id b)
  && py_eq (fi_hash a) (fi_hash b) && py_eq (fi_completed a) (fi_completed b)
  && opt_list_eq ImageInfo_eq (fi_images a) (fi_images b)
  && opt_list_eq ChapterInfo_eq (fi_chapters a) (fi_chapters b).

(** [x in l]: some element [e] of [l] has [e == x]. *)
Definition py_in {A B : Type} (eq : A -> B -> bool) (x : B) (l : list A) : bool :=
  existsb (fun e => eq e x) l.

(** [l.remove(x)]: drops the first element [e] with [e == x]; [None]
    stands for the [ValueError] raised when there is none. *)
Fixpoint py_remove {A B : Type} (eq : A -> B -> bool) (x : B) (l : list A) : option (list A) :=
  match l with
  | [] => None
  | e :: l' => if eq e x then Some l' else cons e <$> py_remove eq x l'
  end.

(** ** The tracker and its effects *)

(** [self.data]: the dict built by [_write_new] or returned by
    [_check_data] (the value under ["files"] is a list of [_FileInfo]
    objects once validated, so it is kept apart from the other items),
    the [{}] that [__init__] starts from ([PyDict [] None]: no ["files"]
    key), or the [False] that [_check_data] returns. *)
Inductive pydata : Type :=
| PyFalse
| PyDict (items : list (string * json)) (files : option (list FileInfo)).

(** The two paths of a tracker: the directory [self.path] and the
    backing document [self.file]. *)
Inductive target : Type := self_path | self_file.

(** What a tracker does to the outside, in the order it does it.
    [queue_submit] is [self.queue.submit(job)]: the job serialises the
    live [data] object when the worker runs it.  [write_text d] is the
    synchronous [self.file.write_text(json.dumps(d))]. *)
Inductive event : Type :=
| queue_start
| queue_shutdown
| queue_submit
| write_text (d : pydata)
| delete_file (p : target)
| log_error (index : nat)
| log_warning (index : nat).

(** What [_load] finds at [self.file]: nothing, content that
    [json.loads] rejects with [JSONDecodeError], or a document. *)
Inductive backing : Type :=
| Missing
| Garbage
| Document (j : json).

Record DownloadTracker : Type := {
  no_track : bool;
  data : pydata;
  trace : list event
}.

Definition M (A : Type) : Type := DownloadTracker -> res A * DownloadTracker.

#[export] Instance M_ret : MRet M := fun A a t => (Ok a, t).
#[export] Instance M_bind : MBind M := fun A B f m t =>
  match m t with
  | (Ok a, t') => f a t'
  | (Raise e, t') => (Raise e, t')
  end.

Definition raise {A : Type} (e : exn) : M A := fun t => (Raise e, t).
Definition lift {A : Type} (r : res A) : M A := fun t => (r, t).
Definition emit (ev : event) : M unit :=
  fun t => (Ok tt, {| no_track := no_track t; data := data t; trace := trace t ++ [ev] |}).
Definition self_data : M pydata := fun t => (Ok (data t), t).
Definition set_data (d : pydata) : M unit :=
  fun t => (Ok tt, {| no_track := no_track t; data := d; trace := trace t |}).

(** The [disabled] property *)
Definition disabled : M bool := fun t => (Ok (no_track t), t).

Definition _comment : json :=
  JArr [JStr "DO NOT EDIT THIS FILE"; JStr "UNLESS YOU KNOW WHAT YOU'RE DOING"].

Definition default_data : pydata := PyDict [("comment", _comment)] (Some []).

(** [data["files"]] on the tracker's data *)
Definition data_files (d : pydata) : res (list FileInfo) :=
  match d with
  | PyFalse => Raise TypeError
  | PyDict _ None => Raise (KeyError "files")
  | PyDict _ (Some files) => Ok files
  end.

Arguments data_files : simpl never.

Definition self_files : M (list FileInfo) := d ← self_data; lift (data_files d).

(** A mutation of the list object under [self.data["files"]]. *)
Definition set_files (files : list FileInfo) : M unit :=
  d ← self_data;
  match d with
  | PyDict items _ => set_data (PyDict items (Some files))
  | PyFalse => raise TypeError
  end.

(** [DownloadTracker.shutdown] *)
Definition shutdown : M unit :=
  d ← disabled;
  if (d : bool) then mret tt else emit queue_shutdown.

(** [DownloadTracker._write_new] *)
Definition _write_new : M pydata :=
  d ← disabled;
  (if negb d then emit (write_text default_data) else mret tt);;
  mret default_data.

(** [DownloadTracker.recreate] *)
Definition recreate : M unit :=
  d ← disabled;
  if (d : bool) then mret tt
  else
    emit (delete_file self_file);;
    data ← _write_new;
    set_data data.

(** [DownloadTracker._write] *)
Definition _write : M unit :=
  d ← disabled;
  if (d : bool) then mret tt else emit queue_submit.

(** [DownloadTracker.empty] *)
Definition empty : M bool :=
  files ← self_files;
  mret (Nat.eqb (length files) 0).

(** [lambda x: x.name == name], the filter of [get] and of
    [remove_file_info_from_name] *)
Definition name_is (name : string) (x : FileInfo) : bool :=
  py_eq (fi_name x) (JStr name).

(** [DownloadTracker.get].  The loop keeps the last element that passes
    the filter.  The object it ends with is named by its position in
    [files] (no object stands twice in the list: [add_file_info] and
    [_check_data] append objects they have just built); [get] hands
    out what is there. *)
Fixpoint get_loop (name : string) (files : list FileInfo) (i : nat) (file_info : option nat)
  : option nat :=
  match files with
  | [] => file_info
  | fi :: files' =>
      get_loop name files' (S i)
        (if name_is name fi then Some i else file_info)
  end.

Definition get (name : string) : M (option FileInfo) :=
  files ← self_files;
  mret (i ← get_loop name files 0 None; files !! i).

(** [files.remove(fi)] for the object [fi] found at position [i] of
    [files]: the first element that is [fi] itself or is [== fi] goes. *)
Fixpoint remove_obj (fi : FileInfo) (i : nat) (files : list FileInfo) : list FileInfo :=
  match files with
  | [] => []
  | e :: files' =>
      match i with
      | 0 => files'
      | S i' => if FileInfo_eq e fi then files' else e :: remove_obj fi i' files'
      end
  end.

(** The loop of [remove_file_info_from_name].  [filter] pulls from a
    list iterator, which holds the list and a position [i] and stops
    once [i] is past the end of the list as it is then; the body
    removes from that same list.  Each round moves [i] forward and the
    list never grows, so [fuel] rounds are enough when [fuel] exceeds
    the length (lemma [remove_loop_total]). *)
Fixpoint remove_loop (fuel : nat) (name : string) (i : nat) (files : list FileInfo)
  : option (list FileInfo) :=
  match fuel with
  | 0 => None
  | S fuel' =>
      match files !! i with
      | None => Some files
      | Some fi =>
          if name_is name fi
          then remove_loop fuel' name (S i) (remove_obj fi i files)
          else remove_loop fuel' name (S i) files
      end
  end.

(** [DownloadTracker.remove_file_info_from_name] *)
Definition remove_file_info_from_name (name : string) : M unit :=
  files ← self_files;
  match remove_loop (S (length files)) name 0 files with
  | Some files' => set_files files'
  | None => mret tt
  end.

Definition opt_str (o : option string) : json :=
  match o with
  | Some s => JStr s
  | None => JNull
  end.

(** [DownloadTracker.add_file_info] *)
Definition add_file_info (name : string) (id hash : option string)
    (null_images null_chapters : bool) : M FileInfo :=
  files ← self_files;
  file_info ← lift (_FileInfo (JObj [
    ("name", JStr name);
    ("id", opt_str id);
    ("hash", opt_str hash);
    ("completed", JBool false);
    ("images", if null_images then JNull else JArr []);
    ("chapters", if null_chapters then JNull else JArr [])]));
  set_files (files ++ [file_info]);;
  _write;;
  mret file_info.

(** *** The page number of an image

    [re.search(r"(?P<page>[0-9]{1,})\..{1,}", name)]: the leftmost
    position from which a run of digits, a dot and one more character
    other than a newline can be read.  The run is greedy, and a shorter
    run would be followed by a digit and not by the dot, so only the
    longest run from a position can match. *)

Definition is_digit (c : ascii) : bool :=
  (48 <=? nat_of_ascii c) && (nat_of_ascii c <=? 57).

Fixpoint span_digits (s : string) : string * string :=
  match s with
  | String c s' =>
      if is_digit c
      then let (ds, rest) := span_digits s' in (String c ds, rest)
      else (EmptyString, s)
  | EmptyString => (EmptyString, EmptyString)
  end.

(** [int(digits)], without the limit CPython puts on the number of
    digits (4300 by default since 3.11) *)
Fixpoint int_of_digits (acc : Z) (ds : string) : Z :=
  match ds with
  | EmptyString => acc
  | String c ds' => int_of_digits (10 * acc + Z.of_nat (nat_of_ascii c - 48)) ds'
  end.

(** The pattern read from the very start of [s]. *)
Definition match_here (s : string) : option Z :=
  match span_digits s with
  | (String d ds, String "." (String c _)) =>
      if Ascii.eqb c "010" then None else Some (int_of_digits 0 (String d ds))
  | _ => None
  end.

Fixpoint re_search_page (s : string) : option Z :=
  match match_here s with
  | Some page => Some page
  | None =>
      match s with
      | EmptyString => None
      | String _ s' => re_search_page s'
      end
  end.

(** [get_page_image], the sort key inside [add_image_info];
    [re.search] takes a [str] only. *)
Definition get_page_image (im_info : ImageInfo) : res Z :=
  match im_name im_info with
  | JStr name =>
      match re_search_page name with
      | Some page => Ok page
      | None => Raise (Exception name)
      end
  | _ => Raise TypeError
  end.

(** [sorted(l, key=key)]: every key is computed first, in order, then
    the elements are put in ascending key order, elements of equal key
    staying in the order they had. *)
Fixpoint insert_sorted {A : Type} (k : Z) (x : A) (l : list (Z * A)) : list (Z * A) :=
  match l with
  | [] => [(k, x)]
  | (k', y) :: l' =>
      if (k <=? k')%Z then (k, x) :: l else (k', y) :: insert_sorted k x l'
  end.

Fixpoint sort_pairs {A : Type} (l : list (Z * A)) : list (Z * A) :=
  match l with
  | [] => []
  | (k, x) :: l' => insert_sorted k x (sort_pairs l')
  end.

Definition sorted {A : Type} (l : list A) (key : A -> res Z) : res (list A) :=
  keys ← mapM key l;
  mret (map snd (sort_pairs (zip keys l))).

(** An assignment to the attributes of the object at position [i]. *)
Definition set_file (i : nat) (file_info : FileInfo) : M unit :=
  files ← self_files;
  set_files (<[i := file_info]> files).

Definition with_images (fi : FileInfo) (images : list ImageInfo) : FileInfo :=
  {| fi_name := fi_name fi; fi_id := fi_id fi; fi_hash := fi_hash fi;
     fi_completed := fi_completed fi; fi_images := Some images;
     fi_chapters := fi_chapters fi |}.

Definition with_chapters (fi : FileInfo) (chapters : list ChapterInfo) : FileInfo :=
  {| fi_name := fi_name fi; fi_id := fi_id fi; fi_hash := fi_hash fi;
     fi_completed := fi_completed fi; fi_images := fi_images fi;
     fi_chapters := Some chapters |}.

Definition with_completed (fi : FileInfo) (completed : json) : FileInfo :=
  {| fi_name := fi_name fi; fi_id := fi_id fi; fi_hash := fi_hash fi;
     fi_completed := completed; fi_images := fi_images fi;
     fi_chapters := fi_chapters fi |}.

(** [self.get(name)] followed by an attribute access on what it
    returned: [None] has no attributes. *)
Definition get_object (name : string) : M (nat * FileInfo) :=
  files ← self_files;
  match get_loop name files 0 None with
  | Some i =>
      match files !! i with
      | Some file_info => mret (i, file_info)
      | None => raise AttributeError
      end
  | None => raise AttributeError
  end.

(** [DownloadTracker.add_image_info].  The list under [images] is
    changed in place by [remove] and [append] before the keys are
    computed, so it stays changed when a key raises. *)
Definition add_image_info (name img_name hash chap_id : string) : M unit :=
  '(i, file_info) ← get_object name;
  im_info ← lift (_ImageInfo (JObj [
    ("name", JStr img_name); ("hash", JStr hash); ("chapter_id", JStr chap_id)]));
  match fi_images file_info with
  | None => raise AttributeError
  | Some images =>
      let images1 := default images (py_remove ImageInfo_eq im_info images) in
      let images2 := images1 ++ [im_info] in
      set_file i (with_images file_info images2);;
      images3 ← lift (sorted images2 get_page_image);
      set_file i (with_images file_info images3);;
      _write
  end.

(** [DownloadTracker.add_chapter_info] *)
Definition add_chapter_info (name chapter_name chapter_id : string) : M unit :=
  '(i, file_info) ← get_object name;
  match fi_chapters file_info with
  | None => raise TypeError
  | Some chapters =>
      if py_in ChapterInfo_eq_str chapter_id chapters then mret tt
      else
        ch_info ← lift (_ChapterInfo (JObj [
          ("name", JStr chapter_name); ("id", JStr chapter_id)]));
        set_file i (with_chapters file_info (chapters ++ [ch_info]));;
        _write
  end.

(** [DownloadTracker.toggle_complete] *)
Definition toggle_complete (name : string) (is_complete : bool) : M unit :=
  '(i, file_info) ← get_object name;
  set_file i (with_completed file_info (JBool is_complete));;
  _write.

(** The items of a parsed dict other than ["files"]. *)
Definition other_items (data : json) : list (string * json) :=
  match data with
  | JObj d => filter (fun kv => fst kv ≠ "files") d
  | _ => []
  end.

(** The loop of [_check_data] over [enumerate(files)]; [inl] carries
    the value returned from inside the loop. *)
Fixpoint check_loop (files : list json) (index : nat) (new_files : list FileInfo)
  : M (pydata + list FileInfo) :=
  match files with
  | [] => mret (inr new_files)
  | file :: files' =>
      match _FileInfo file with
      | Raise (KeyError _) =>
          emit (log_error index);;
          emit (delete_file self_path);;
          d ← _write_new;
          mret (inl d)
      | Raise e => raise e
      | Ok fi =>
          if py_in FileInfo_eq fi new_files
          then emit (log_warning index);; check_loop files' (S index) new_files
          else check_loop files' (S index) (new_files ++ [fi])
      end
  end.

(** [DownloadTracker._check_data] *)
Definition _check_data (data : json) : M pydata :=
  match subscript data "files" with
  | Raise (KeyError _) => mret PyFalse
  | Raise e => raise e
  | Ok files =>
      entries ← lift (py_iter files);
      r ← check_loop entries 0 [];
      match r with
      | inl d => mret d
      | inr new_files => mret (PyDict (other_items data) (Some new_files))
      end
  end.

(** [DownloadTracker._load] *)
Definition _load (file : backing) : M unit :=
  match file with
  | Missing => d ← _write_new; set_data d
  | Garbage => _write_new;; mret tt
  | Document j =>
      d ← _check_data j;
      _write;;
      set_data d
  end.

(** [DownloadTracker.__init__], with [config.no_track] and what is on
    disk at [self.file] as inputs. *)
Definition __init__ (config_no_track : bool) (file : backing) : res unit * DownloadTracker :=
  let self := {| no_track := config_no_track; data := PyDict [] None; trace := [] |} in
  (d ← disabled;
   if (d : bool) then
     data ← _write_new;
     set_data data
   else
     emit queue_start;;
     _load file) self.

(** ** Sample ledgers *)

Definition sample_file (name id : string) : FileInfo :=
  {| fi_name := JStr name; fi_id := JStr id; fi_hash := JNull;
     fi_completed := JBool false; fi_images := None; fi_chapters := None |}.

Definition sample_tracker (config_no_track : bool) (files : list FileInfo) : DownloadTracker :=
  {| no_track := config_no_track; data := PyDict [("comment", _comment)] (Some files);
     trace := [] |}.

Definition sample_files : list FileInfo :=
  [sample_file "X" "a"; sample_file "Y" "c"; sample_file "X" "b"].

(** A disabled tracker to which one file was added. *)
Definition sample_disabled : DownloadTracker :=
  snd (add_file_info "Ch.1" (Some "abc") None true true (snd (__init__ true Missing))).

(** A raw file entry as it stands in a backing document. *)
Definition sample_entry (name id : string) : json :=
  JObj [("name", JStr name); ("id", JStr id); ("hash", JNull);
        ("completed", JBool false); ("images", JNull); ("chapters", JNull)].

(** The same entry without its ["id"]. *)
Definition sample_entry_no_id (name : string) : json :=
  JObj [("name", JStr name); ("hash", JNull);
        ("completed", JBool false); ("images", JNull); ("chapters", JNull)].

(** A ledger root as the schema describes it: a dict with the fixed
    comment and a files list. *)
Definition well_formed_root (d : pydata) : Prop :=
  exists items files, d = PyDict items (Some files) /\ assoc "comment" items = Some _comment.

Definition with_trace (t : DownloadTracker) (d : pydata) (evs : list event) : DownloadTracker :=
  {| no_track := no_track t; data := d; trace := trace t ++ evs |}.

Definition sample_volume : FileInfo :=
  {| fi_name := JStr "Vol. 1"; fi_id := JNull; fi_hash := JNull;
     fi_completed := JBool false; fi_images := None; fi_chapters := Some [] |}.

(** ** Sequences of calls *)

(** The calls a download makes on a tracker once it is built. *)
Inductive operation : Type :=
| call_add_file_info (name : string) (id hash : option string) (null_images null_chapters : bool)
| call_add_image_info (name img_name hash chap_id : string)
| call_add_chapter_info (name chapter_name chapter_id : string)
| call_toggle_complete (name : string) (is_complete : bool)
| call_remove_file_info_from_name (name : string)
| call_get (name : string)
| call_empty
| call_recreate
| call_shutdown.

(** The tracker after a call, whether it returned or raised. *)
Definition after (o : operation) (t : DownloadTracker) : DownloadTracker :=
  match o with
  | call_add_file_info name id hash null_images null_chapters =>
      snd (add_file_info name id hash null_images null_chapters t)
  | call_add_image_info name img_name hash chap_id =>
      snd (add_image_info name img_name hash chap_id t)
  | call_add_chapter_info name chapter_name chapter_id =>
      snd (add_chapter_info name chapter_name chapter_id t)
  | call_toggle_complete name is_complete => snd (toggle_complete name is_complete t)
  | call_remove_file_info_from_name name => snd (remove_file_info_from_name name t)
  | call_get name => snd (get name t)
  | call_empty => snd (empty t)
  | call_recreate => snd (recreate t)
  | call_shutdown => snd (shutdown t)
  end.

Definition after_all (ops : list operation) (t : DownloadTracker) : DownloadTracker :=
  fold_left (fun t o => after o t) ops t.

Definition is_recreate (o : operation) : bool :=
  match o with
  | call_recreate => true
  | _ => false
  end.

(** The tracker as an enabled one with nothing done yet would hold the
    same data. *)
Definition enabled_fresh (t : DownloadTracker) : DownloadTracker :=
  {| no_track := false; data := data t; trace := [] |}.

(** A computation that looks at [config.no_track] only to decide
    whether to perform its effects: its result and what it does to the
    data are those of the enabled run, its effects are those of the
    enabled run when enabled, and none when disabled. *)
Definition memory_only {A : Type} (m : M A) : Prop :=
  forall t,
    fst (m t) = fst (m (enabled_fresh t))
    /\ data (snd (m t)) = data (snd (m (enabled_fresh t)))
    /\ no_track (snd (m t)) = no_track t
    /\ trace (snd (m t))
       = trace t ++ (if no_track t then [] else trace (snd (m (enabled_fresh t)))).

Definition key_le {A : Type} (a b : Z * A) : Prop := (fst a <= fst b)%Z.

(** ** Notions used in the statements *)

(** The record [add_image_info] builds from its arguments. *)
Definition new_image (img_name hash chap_id : string) : ImageInfo :=
  {| im_name := JStr img_name; im_hash := JStr hash; im_chapter_id := JStr chap_id |}.


(** The file record of the scenario: [add_file_info("Ch.1", id="abc",
    null_images=False)]. *)
Definition sample_chapter : FileInfo :=
  {| fi_name := JStr "Ch.1"; fi_id := JStr "abc"; fi_hash := JNull;
     fi_completed := JBool false; fi_images := Some []; fi_chapters := None |}.

(** No record of the list is [==] to a later one. *)
Definition distinct_records (l : list FileInfo) : Prop :=
  forall i j a b, i < j -> l !! i = Some a -> l !! j = Some b -> FileInfo_eq a b = false.

(** The loop of [_check_data] on entries that all construct: the list
    it builds and the warnings it logs. *)
Fixpoint kept_files (recs : list FileInfo) (new_files : list FileInfo) : list FileInfo :=
  match recs with
  | [] => new_files
  | fi :: recs' =>
      if py_in FileInfo_eq fi new_files then kept_files recs' new_files
      else kept_files recs' (new_files ++ [fi])
  end.

Fixpoint duplicate_warnings (recs : list FileInfo) (index : nat) (new_files : list FileInfo)
  : list event :=
  match recs with
  | [] => []
  | fi :: recs' =>
      if py_in FileInfo_eq fi new_files
      then log_warning index :: duplicate_warnings recs' (S index) new_files
      else duplicate_warnings recs' (S index) (new_files ++ [fi])
  end.

(** The positions, in [earlier ++ l], of the records of [l] that no
    record before them equals. *)
Fixpoint first_positions (earlier l : list FileInfo) : list nat :=
  match l with
  | [] => []
  | x :: l' =>
      (if py_in FileInfo_eq x earlier then [] else [length earlier])
      ++ first_positions (earlier ++ [x]) l'
  end.

(** [new_files] against all the records seen so far: it holds only
    records seen, and every record seen is in it or equals one of it. *)
Definition covers (new_files earlier : list FileInfo) : Prop :=
  (forall a, In a new_files -> In a earlier)
  /\ (forall e, In e earlier ->
        In e new_files \/ exists a, In a new_files /\ FileInfo_eq a e = true).

(** The claim of C1 as it is worded: no two retained records share a
    name. *)
Definition unique_names (files : list FileInfo) : Prop :=
  forall i j a b, i < j -> files !! i = Some a -> files !! j = Some b ->
                  py_eq (fi_name a) (fi_name b) = false.

(** ** Serialisation

    The [data] properties of the records.  Those of an image and of a
    chapter are dicts of plain values. *)

(** [_ImageInfo.data] *)
Definition ImageInfo_data (im : ImageInfo) : json :=
  JObj [("name", im_name im); ("hash", im_hash im); ("chapter_id", im_chapter_id im)].

(** [_ChapterInfo.data] *)
Definition ChapterInfo_data (ch : ChapterInfo) : json :=
  JObj [("name", ch_name ch); ("id", ch_id ch)].

(** [None], or a list of records, each one replaced by what [encode]
    makes of it. *)
Definition encode_records {A : Type} (encode : A -> json) (o : option (list A)) : json :=
  match o with
  | None => JNull
  | Some l => JArr (map encode l)
  end.

(** What [json.dumps] with [DownloadTrackerJSONEncoder] writes for a
    [_FileInfo]: [default] turns the object into its [data], whose
    ["images"] and ["chapters"] still hold record objects, and is called
    again on each of them. *)
Definition FileInfo_dumps (fi : FileInfo) : json :=
  JObj [("name", fi_name fi); ("id", fi_id fi); ("hash", fi_hash fi);
        ("completed", fi_completed fi);
        ("images", encode_records ImageInfo_data (fi_images fi));
        ("chapters", encode_records ChapterInfo_data (fi_chapters fi))].

(** The document a write job leaves behind: [json_lib.dumps(data,
    ...)] of the tracker's data, as the value [json_lib.loads] reads
    back from it (the two are inverse on the values modelled here; with
    orjson, for integers of at most 64 bits).  [k] is the place of
    ["files"] among the keys of the dict, which the tracker's data does
    not record. *)
Definition dumps (k : nat) (d : pydata) : json :=
  match d with
  | PyFalse => JBool false
  | PyDict items None => JObj items
  | PyDict items (Some files) =>
      JObj (take k items ++ ("files", JArr (map FileInfo_dumps files)) :: drop k items)
  end.

(** The record [add_file_info] builds from its arguments. *)
Definition new_file (name : string) (id hash : option string)
    (null_images null_chapters : bool) : FileInfo :=
  {| fi_name := JStr name; fi_id := opt_str id; fi_hash := opt_str hash;
     fi_completed := JBool false;
     fi_images := if null_images then None else Some [];
     fi_chapters := if null_chapters then None else Some [] |}.

(** No chapter of the list has the id of a later one. *)
Definition unique_ids (chapters : list ChapterInfo) : Prop :=
  forall i j a b, i < j -> chapters !! i = Some a -> chapters !! j = Some b ->
                  py_eq (ch_id a) (ch_id b) = false.

(** The exceptions a constructor can raise. *)
Definition key_or_type (e : exn) : Prop :=
  (exists k, e = KeyError k) \/ e = TypeError.

(** A file record for a volume, with one chapter. *)
Definition sample_volume_1 : FileInfo :=
  {| fi_name := JStr "Vol. 1"; fi_id := JNull; fi_hash := JNull;
     fi_completed := JBool false; fi_images := None;
     fi_chapters := Some [{| ch_name := JStr "Ch. 1"; ch_id := JStr "c1" |}] |}.

(** Every character of [s] passes [p]. *)
Fixpoint string_forall (p : ascii -> bool) (s : string) : bool :=
  match s with
  | EmptyString => true
  | String c s' => p c && string_forall p s'
  end.

(** [t'] differs from [t] in memory at most by the attributes of the
    object [get(name)] returns, its name apart. *)
Definition touches_only (name : string) (t t' : DownloadTracker) : Prop :=
  data t' = data t
  \/ exists items files i fi fi',
       data t = PyDict items (Some files)
       /\ get_loop name files 0 None = Some i
       /\ files !! i = Some fi
       /\ fi_name fi' = fi_name fi
       /\ data t' = PyDict items (Some (<[i := fi']> files)).

(** The effects of a call that ended in [r], started on [t]: none, or,
    for a call that returned with tracking on, one queued write. *)
Definition at_most_one_write {A : Type} (t : DownloadTracker)
    (r : res A * DownloadTracker) : Prop :=
  trace (snd r) = trace t
  \/ ((exists a, fst r = Ok a) /\ no_track t = false
      /\ trace (snd r) = trace t ++ [queue_submit]).

(** The positions, in [earlier ++ l], of the records of [l] that some
    record before them equals. *)
Fixpoint repeat_positions (earlier l : list FileInfo) : list nat :=
  match l with
  | [] => []
  | x :: l' =>
      (if py_in FileInfo_eq x earlier then [length earlier] else [])
      ++ repeat_positions (earlier ++ [x]) l'
  end.

(** [fi'] has the attributes of [fi], [images] apart. *)
Definition same_but_images (fi fi' : FileInfo) : Prop :=
  fi_name fi' = fi_name fi /\ fi_id fi' = fi_id fi /\ fi_hash fi' = fi_hash fi
  /\ fi_completed fi' = fi_completed fi /\ fi_chapters fi' = fi_chapters fi.

(** [fi'] has the attributes of [fi], [chapters] apart. *)
Definition same_but_chapters (fi fi' : FileInfo) : Prop :=
  fi_name fi' = fi_name fi /\ fi_id fi' = fi_id fi /\ fi_hash fi' = fi_hash fi
  /\ fi_completed fi' = fi_completed fi /\ fi_images fi' = fi_images fi.

(** [fi'] has the attributes of [fi], [completed] apart. *)
Definition same_but_completed (fi fi' : FileInfo) : Prop :=
  fi_name fi' = fi_name fi /\ fi_id fi' = fi_id fi /\ fi_hash fi' = fi_hash fi
  /\ fi_images fi' = fi_images fi /\ fi_chapters fi' = fi_chapters fi.

(** The file record of the scenario once ["1.png"] is recorded. *)
Definition sample_chapter_1 : FileInfo :=
  {| fi_name := JStr "Ch.1"; fi_id := JStr "abc"; fi_hash := JNull;
     fi_completed := JBool false;
     fi_images := Some [new_image "1.png" "h1" "abc"]; fi_chapters := None |}.

(** * Properties *)

Lemma py_eq_arr l m : py_eq (JArr l) (JArr m) = list_eq py_eq l m.
Proof.
  revert m; induction l as [|x l IH]; intros [|y m]; simpl; try reflexivity.
  f_equal. apply IH.
Qed.

Lemma py_eq_obj d e :
  py_eq (JObj d) (JObj e) = Nat.eqb (length d) (length e) && items_in d e.
Proof.
  simpl. f_equal. induction d as [|[k v] d IH]; simpl; [reflexivity|].
  f_equal. apply IH.
Qed.

(** [==] is transitive on these values ([True == 1] included). *)
Lemma assoc_In {A : Type} k (d : list (string * A)) v :
  assoc k d = Some v -> In (k, v) d.
Proof.
  induction d as [|[k' w] d IH]; simpl; [discriminate|].
  destruct (String.eqb k' k) eqn:E.
  - apply String.eqb_eq in E. intros [= ->]. left. congruence.
  - intros H. right. auto.
Qed.

Lemma items_in_spec d e :
  items_in d e = true <->
  forall k v, In (k, v) d -> exists w, assoc k e = Some w /\ py_eq v w = true.
Proof.
  induction d as [|[k v] d IH]; simpl.
  - split; [intros _ ? ? []|reflexivity].
  - rewrite andb_true_iff, IH. split.
    + intros [H1 H2] k' v' [[= <- <-]|Hin]; [|eauto].
      destruct (assoc k e) as [w|]; [eauto|discriminate].
    + intros H. split; [|intros; apply H; auto].
      destruct (H k v (or_introl eq_refl)) as (w & -> & Hw). exact Hw.
Qed.

Lemma list_eq_trans {A : Type} (eq : A -> A -> bool) (l m n : list A) :
  Forall (fun x => forall y z, eq x y = true -> eq y z = true -> eq x z = true) l ->
  list_eq eq l m = true -> list_eq eq m n = true -> list_eq eq l n = true.
Proof.
  intros HF. revert m n.
  induction HF as [|x l Hx HF IH]; intros [|y m] [|z n]; simpl; try discriminate; auto.
  rewrite !andb_true_iff. intros [H1 H2] [H3 H4]. split; [eapply Hx|eapply IH]; eauto.
Qed.

Lemma py_eq_trans a : forall b c,
  py_eq a b = true -> py_eq b c = true -> py_eq a c = true.
Proof.
  induction a as [| x | x | s | l IH | d IH] using json_nested_ind; intros b c.
  - destruct b, c; simpl; congruence.
  - destruct b as [| y | y | | |], c as [| z | z | | |]; cbn [py_eq]; try discriminate;
      rewrite ?Z.eqb_eq, ?Bool.eqb_true_iff; intros; subst; try reflexivity;
      repeat match goal with v : bool |- _ => destruct v end; cbn in *; congruence.
  - destruct b as [| y | y | | |], c as [| z | z | | |]; cbn [py_eq]; try discriminate;
      rewrite ?Z.eqb_eq, ?Bool.eqb_true_iff; intros; subst; try reflexivity;
      repeat match goal with v : bool |- _ => destruct v end; cbn in *; congruence.
  - destruct b, c; simpl; try discriminate.
    rewrite !String.eqb_eq. congruence.
  - destruct b as [| | | | m |], c as [| | | | n |]; try discriminate.
    rewrite !py_eq_arr. apply list_eq_trans.
    eapply Forall_impl; [exact IH|]. simpl. intros x Hx y z. apply Hx.
  - destruct b as [| | | | | e], c as [| | | | | f]; try discriminate.
    rewrite !py_eq_obj, !andb_true_iff, !Nat.eqb_eq, !items_in_spec.
    intros [L1 H1] [L2 H2]. split; [congruence|].
    intros k v Hin. destruct (H1 k v Hin) as (w & Hw & Hvw).
    destruct (H2 k w (assoc_In _ _ _ Hw)) as (u & Hu & Hwu).
    exists u. split; [exact Hu|].
    rewrite List.Forall_forall in IH. exact (IH (k, v) Hin w u Hvw Hwu).
Qed.

(** ** Equality of records *)

Lemma opt_list_eq_trans {A : Type} (eq : A -> A -> bool) :
  (forall x y z, eq x y = true -> eq y z = true -> eq x z = true) ->
  forall a b c, opt_list_eq eq a b = true -> opt_list_eq eq b c = true ->
                opt_list_eq eq a c = true.
Proof.
  intros Heq [l|] [m|] [n|]; simpl; try discriminate; auto.
  apply list_eq_trans. apply List.Forall_forall. intros x _. apply Heq.
Qed.

Lemma ImageInfo_eq_trans a b c :
  ImageInfo_eq a b = true -> ImageInfo_eq b c = true -> ImageInfo_eq a c = true.
Proof.
  unfold ImageInfo_eq. rewrite !andb_true_iff.
  intros [[? ?] ?] [[? ?] ?]. repeat split; eapply py_eq_trans; eauto.
Qed.

Lemma ChapterInfo_eq_trans a b c :
  ChapterInfo_eq a b = true -> ChapterInfo_eq b c = true -> ChapterInfo_eq a c = true.
Proof.
  unfold ChapterInfo_eq. rewrite !andb_true_iff.
  intros [? ?] [? ?]. split; eapply py_eq_trans; eauto.
Qed.

Lemma FileInfo_eq_trans a b c :
  FileInfo_eq a b = true -> FileInfo_eq b c = true -> FileInfo_eq a c = true.
Proof.
  unfold FileInfo_eq. rewrite !andb_true_iff.
  intros [[[[[? ?] ?] ?] ?] ?] [[[[[? ?] ?] ?] ?] ?].
  repeat split; try (eapply py_eq_trans; eauto; fail).
  - eapply opt_list_eq_trans; eauto using ImageInfo_eq_trans.
  - eapply opt_list_eq_trans; eauto using ChapterInfo_eq_trans.
Qed.

(** ** Running the operations *)

Ltac run :=
  repeat progress
    (unfold self_files, self_data, disabled, set_files, set_data, emit, lift, raise,
       mbind, mret, M_bind, M_ret, res_bind, res_ret in *;
     cbn in *).

(** ** [get] *)

Lemma get_loop_last name files : forall l0 acc,
  get_loop name files (length l0) acc ≫= (fun j => (l0 ++ files) !! j) =
  match last (List.filter (name_is name) files) with
  | Some x => Some x
  | None => acc ≫= (fun j => (l0 ++ files) !! j)
  end.
Proof.
  induction files as [|fi files IH]; intros l0 acc; [reflexivity|].
  cbn [get_loop List.filter].
  specialize (IH (l0 ++ [fi])). rewrite length_app, Nat.add_1_r, <- app_assoc in IH.
  cbn [app] in IH. rewrite IH.
  destruct (name_is name fi) eqn:E.
  - rewrite last_cons. destruct (last _); [reflexivity|].
    cbn. rewrite (lookup_app_r l0) by lia. rewrite Nat.sub_diag. reflexivity.
  - reflexivity.
Qed.

Lemma last_filter_split {A : Type} (f : A -> bool) l1 x l2 :
  f x = true -> Forall (fun y => f y = false) l2 ->
  last (List.filter f (l1 ++ x :: l2)) = Some x.
Proof.
  intros Hx Hl2. rewrite List.filter_app. cbn [List.filter]. rewrite Hx.
  assert (List.filter f l2 = []) as ->.
  { induction Hl2 as [|y l Hy _ IH]; [reflexivity|]. cbn. rewrite Hy. exact IH. }
  rewrite last_app. reflexivity.
Qed.

Lemma last_filter_none {A : Type} (f : A -> bool) l :
  Forall (fun y => f y = false) l -> last (List.filter f l) = None.
Proof.
  induction 1 as [|y l Hy _ IH]; [reflexivity|]. cbn. rewrite Hy. exact IH.
Qed.

Lemma get_eq t files name :
  data_files (data t) = Ok files ->
  get name t = (Ok (last (List.filter (name_is name) files)), t).
Proof.
  intros H. unfold get. run. rewrite H. cbn. do 2 f_equal.
  pose proof (get_loop_last name files [] None) as L. cbn in L.
  etransitivity; [exact L|]. destruct (last _); reflexivity.
Qed.

(** C6. [get(name)] returns the last record of the files sequence whose
    name equals [name], and [None] when there is none: the record it
    returns is followed by no other record of that name, whatever
    precedes it, and the tracker is left as it was. *)
Theorem get_returns_last_match (t : DownloadTracker) (files : list FileInfo) (name : string) :
  data_files (data t) = Ok files ->
  get name t = (Ok (last (List.filter (name_is name) files)), t)
  /\ (forall l1 fi l2,
        files = l1 ++ fi :: l2 -> name_is name fi = true ->
        Forall (fun x => name_is name x = false) l2 ->
        get name t = (Ok (Some fi), t))
  /\ (Forall (fun x => name_is name x = false) files -> get name t = (Ok None, t)).
Proof.
  intros H. rewrite (get_eq t files name H). split; [reflexivity|]. split.
  - intros l1 fi l2 -> Hfi Hl2. rewrite last_filter_split; auto.
  - intros Hall. rewrite last_filter_none; auto.
Qed.

Lemma get_returns_last_match_witness :
  data_files (data (sample_tracker false sample_files)) = Ok sample_files
  /\ get "X" (sample_tracker false sample_files)
     = (Ok (Some (sample_file "X" "b")), sample_tracker false sample_files).
Proof.
  split; [reflexivity|].
  exact (proj1 (get_returns_last_match (sample_tracker false sample_files)
                  sample_files "X" eq_refl)).
Defined.

(** ** [recreate] with tracking disabled *)

Lemma recreate_disabled_eq t : no_track t = true -> recreate t = (Ok tt, t).
Proof. intros H. unfold recreate. run. rewrite H. reflexivity. Qed.

(** C10. With [config.no_track] set, [recreate()] returns at once: the
    tracker, its files sequence included, is exactly what it was, so
    [get] and [empty] answer as before the call. *)
Theorem recreate_disabled_unchanged (t : DownloadTracker) :
  no_track t = true ->
  recreate t = (Ok tt, t)
  /\ (forall name, get name (snd (recreate t)) = get name t)
  /\ empty (snd (recreate t)) = empty t.
Proof.
  intros H. rewrite (recreate_disabled_eq t H). auto.
Qed.

Lemma recreate_disabled_unchanged_witness :
  no_track sample_disabled = true
  /\ get "Ch.1" (snd (recreate sample_disabled)) = get "Ch.1" sample_disabled
  /\ fst (get "Ch.1" sample_disabled)
     = Ok (Some {| fi_name := JStr "Ch.1"; fi_id := JStr "abc"; fi_hash := JNull;
                   fi_completed := JBool false; fi_images := None; fi_chapters := None |}).
Proof.
  split; [reflexivity|]. split; [|reflexivity].
  exact (proj1 (proj2 (recreate_disabled_unchanged sample_disabled eq_refl)) "Ch.1").
Defined.

(** ** [remove_file_info_from_name] *)

Lemma remove_obj_length fi files : forall i,
  length (remove_obj fi i files) <= length files.
Proof.
  induction files as [|e files IH]; intros [|i]; cbn; try lia.
  destruct (FileInfo_eq e fi); cbn; [lia|]. specialize (IH i). lia.
Qed.

(** The loop ends: with more rounds allowed than there are positions
    left, it returns a list. *)
Lemma remove_loop_total name : forall fuel i files,
  length files - i < fuel -> exists files', remove_loop fuel name i files = Some files'.
Proof.
  induction fuel as [|fuel IH]; intros i files Hlen; cbn; [lia|].
  destruct (files !! i) as [fi|] eqn:E; [|eauto].
  apply lookup_lt_Some in E.
  destruct (name_is name fi).
  - apply IH. pose proof (remove_obj_length fi files i). lia.
  - apply IH. lia.
Qed.

(** C2. Two files of the same name added one after the other: the loop
    removes the first, the iterator then looks at position 1 of a list
    that has one element left, and the second record stays, still
    returned by [get]. *)
Theorem remove_file_info_from_name_leaves_a_match :
  let t0 := snd (__init__ false Missing) in
  let t1 := snd (add_file_info "X" (Some "a") None true true t0) in
  let t2 := snd (add_file_info "X" (Some "b") None true true t1) in
  let t3 := snd (remove_file_info_from_name "X" t2) in
  data_files (data t2) = Ok [sample_file "X" "a"; sample_file "X" "b"]
  /\ fst (remove_file_info_from_name "X" t2) = Ok tt
  /\ data_files (data t3) = Ok [sample_file "X" "b"]
  /\ fst (get "X" t3) = Ok (Some (sample_file "X" "b")).
Proof. repeat split. Qed.

(** ** [_load] *)

(** C3. Content that does not parse leaves [self.data] at the [{}] of
    [__init__] (the new skeleton is written to disk and dropped), and a
    document without ["files"] leaves it at [False]; neither is a root
    with a comment and a files list, and [empty] raises on both. *)
Theorem load_leaves_no_root :
  __init__ false Garbage
  = (Ok tt, {| no_track := false; data := PyDict [] None;
               trace := [queue_start; write_text default_data] |})
  /\ ~ well_formed_root (PyDict [] None)
  /\ fst (empty (snd (__init__ false Garbage))) = Raise (KeyError "files")
  /\ __init__ false (Document (JObj [("comment", _comment)]))
     = (Ok tt, {| no_track := false; data := PyFalse;
                  trace := [queue_start; queue_submit] |})
  /\ ~ well_formed_root PyFalse
  /\ fst (empty (snd (__init__ false (Document (JObj [("comment", _comment)]))))) = Raise TypeError.
Proof.
  repeat split; try reflexivity.
  - intros (items & files & [=] & _).
  - intros (items & files & [=] & _).
Qed.

(** ** Objects reached through [get] *)

Lemma data_files_inv d files :
  data_files d = Ok files -> exists items, d = PyDict items (Some files).
Proof.
  destruct d as [|items [fs|]]; unfold data_files; intros [=]. subst. eauto.
Qed.

Lemma get_inv name t fi r :
  get name t = (Ok (Some fi), r) ->
  exists files i, data_files (data t) = Ok files
                  /\ get_loop name files 0 None = Some i /\ files !! i = Some fi.
Proof.
  unfold get. run. destruct (data_files (data t)) as [files|e]; [|discriminate].
  intros [= H _]. exists files.
  destruct (get_loop name files 0 None) as [i|]; [|discriminate]. eauto.
Qed.

Lemma get_loop_lookup name files i fi :
  get_loop name files 0 None = Some i -> files !! i = Some fi ->
  last (List.filter (name_is name) files) = Some fi.
Proof.
  intros Hloop Hi. pose proof (get_loop_last name files [] None) as L.
  cbn in L. rewrite Hloop in L. cbn in L. rewrite Hi in L.
  destruct (last _); congruence.
Qed.

Lemma get_object_eq name t files i fi :
  data_files (data t) = Ok files ->
  get_loop name files 0 None = Some i -> files !! i = Some fi ->
  get_object name t = (Ok (i, fi), t).
Proof.
  intros H1 H2 H3. unfold get_object. run. rewrite H1, H2, H3. reflexivity.
Qed.

(** The loop of [get] only reads names. *)
Lemma get_loop_names name l l' :
  Forall2 (fun a b => fi_name a = fi_name b) l l' ->
  forall k acc, get_loop name l k acc = get_loop name l' k acc.
Proof.
  induction 1 as [|a b l l' Hab _ IH]; intros k acc; [reflexivity|].
  cbn. unfold name_is. rewrite Hab. apply IH.
Qed.

Lemma get_loop_insert name files i fi fi' k acc :
  files !! i = Some fi -> fi_name fi' = fi_name fi ->
  get_loop name (<[i := fi']> files) k acc = get_loop name files k acc.
Proof.
  intros Hi Hn. apply get_loop_names.
  revert i Hi. induction files as [|e files IH]; intros [|i] Hi; cbn in *; try discriminate.
  - injection Hi as ->. constructor; [exact Hn|].
    apply Forall2_same_length_lookup_2; [reflexivity|].
    intros j x y Hx Hy. congruence.
  - constructor; [reflexivity|]. apply IH. exact Hi.
Qed.

(** ** [add_chapter_info] *)

Lemma py_in_true {A B : Type} (eq : A -> B -> bool) x l :
  py_in eq x l = true <-> exists e, In e l /\ eq e x = true.
Proof. unfold py_in. apply existsb_exists. Qed.




(** ** Tracking disabled *)

Create HintDb memory discriminated.

Lemma memory_only_ret {A : Type} (a : A) : memory_only (mret a).
Proof. intros t. run. destruct (no_track t); rewrite ?app_nil_r; auto. Qed.

Lemma memory_only_raise {A : Type} (e : exn) : memory_only (@raise A e).
Proof. intros t. run. destruct (no_track t); rewrite ?app_nil_r; auto. Qed.

Lemma memory_only_lift {A : Type} (r : res A) : memory_only (lift r).
Proof. intros t. run. destruct (no_track t); rewrite ?app_nil_r; auto. Qed.

Lemma memory_only_self_data : memory_only self_data.
Proof. intros t. run. destruct (no_track t); rewrite ?app_nil_r; auto. Qed.

Lemma memory_only_set_data d : memory_only (set_data d).
Proof. intros t. run. destruct (no_track t); rewrite ?app_nil_r; auto. Qed.

Lemma memory_only_write : memory_only _write.
Proof.
  intros t. unfold _write. run. destruct (no_track t) eqn:E; cbn; rewrite ?app_nil_r; auto.
Qed.

Lemma memory_only_write_new : memory_only _write_new.
Proof.
  intros t. unfold _write_new. run. destruct (no_track t) eqn:E; cbn; rewrite ?app_nil_r; auto.
Qed.

Lemma memory_only_shutdown : memory_only shutdown.
Proof.
  intros t. unfold shutdown. run. destruct (no_track t) eqn:E; cbn; rewrite ?app_nil_r; auto.
Qed.

Lemma memory_only_bind {A B : Type} (m : M A) (f : A -> M B) :
  memory_only m -> (forall a, memory_only (f a)) -> memory_only (m ≫= f).
Proof.
  intros Hm Hf t. destruct (Hm t) as (R & D & N & T).
  unfold mbind, M_bind.
  destruct (m t) as [r t1] eqn:E1, (m (enabled_fresh t)) as [r' c1] eqn:E2.
  cbn in R, D, N, T. subst r'.
  destruct (Hm (enabled_fresh t)) as (_ & _ & N' & T'). rewrite E2 in N', T'.
  cbn in N', T'.
  destruct r as [a|e]; cbn.
  - destruct (Hf a t1) as (R1 & D1 & N1 & T1), (Hf a c1) as (R2 & D2 & N2 & T2).
    assert (enabled_fresh c1 = enabled_fresh t1) as Ec.
    { unfold enabled_fresh. rewrite D. reflexivity. }
    rewrite Ec in *. rewrite N' in T2.
    rewrite R1, R2, D1, D2, N1, N, T1, T2, T, N.
    repeat split. destruct (no_track t); rewrite ?app_nil_r, ?app_assoc; reflexivity.
  - rewrite D, N, T. auto.
Qed.

#[local] Hint Resolve memory_only_ret memory_only_raise memory_only_lift
  memory_only_self_data memory_only_set_data memory_only_write
  memory_only_write_new memory_only_shutdown : memory.

Ltac memory_step :=
  match goal with
  | |- memory_only (_ ≫= _) => apply memory_only_bind; [|intros ?]
  | |- memory_only (match ?x with _ => _ end) => destruct x
  | |- memory_only (let (_, _) := ?x in _) => destruct x
  | |- memory_only _ => solve [auto with memory]
  end.

Lemma memory_only_self_files : memory_only self_files.
Proof. unfold self_files. repeat memory_step. Qed.

Lemma memory_only_set_files fs : memory_only (set_files fs).
Proof. unfold set_files. repeat memory_step. Qed.

#[local] Hint Resolve memory_only_self_files memory_only_set_files : memory.

Lemma memory_only_set_file i fi : memory_only (set_file i fi).
Proof. unfold set_file. repeat memory_step. Qed.

Lemma memory_only_get_object name : memory_only (get_object name).
Proof. unfold get_object. repeat memory_step. Qed.

#[local] Hint Resolve memory_only_set_file memory_only_get_object : memory.

Lemma memory_only_get name : memory_only (get name).
Proof. unfold get. repeat memory_step. Qed.

Lemma memory_only_empty : memory_only empty.
Proof. unfold empty. repeat memory_step. Qed.

Lemma memory_only_remove name : memory_only (remove_file_info_from_name name).
Proof. unfold remove_file_info_from_name. repeat memory_step. Qed.

Lemma memory_only_add_file_info name id hash ni nc :
  memory_only (add_file_info name id hash ni nc).
Proof. unfold add_file_info. repeat memory_step. Qed.

Lemma memory_only_add_image_info name img_name hash chap_id :
  memory_only (add_image_info name img_name hash chap_id).
Proof. unfold add_image_info. repeat memory_step. Qed.

Lemma memory_only_add_chapter_info name chapter_name chapter_id :
  memory_only (add_chapter_info name chapter_name chapter_id).
Proof. unfold add_chapter_info. repeat memory_step. Qed.

Lemma memory_only_toggle_complete name is_complete :
  memory_only (toggle_complete name is_complete).
Proof. unfold toggle_complete. repeat memory_step. Qed.

Lemma memory_only_after o :
  is_recreate o = false ->
  exists m : M unit, memory_only m /\ forall t, after o t = snd (m t).
Proof.
  destruct o; cbn; intros H; try discriminate.
  - exists (add_file_info name id hash null_images null_chapters;; mret tt).
    split; [repeat memory_step; apply memory_only_add_file_info|].
    intros t. unfold mbind, M_bind. destruct (add_file_info _ _ _ _ _ t) as [[?|?] ?]; reflexivity.
  - eexists. split; [apply memory_only_add_image_info|reflexivity].
  - eexists. split; [apply memory_only_add_chapter_info|reflexivity].
  - eexists. split; [apply memory_only_toggle_complete|reflexivity].
  - eexists. split; [apply memory_only_remove|reflexivity].
  - exists (get name;; mret tt).
    split; [repeat memory_step; apply memory_only_get|].
    intros t. unfold mbind, M_bind. destruct (get name t) as [[?|?] ?]; reflexivity.
  - exists (empty;; mret tt).
    split; [repeat memory_step; apply memory_only_empty|].
    intros t. unfold mbind, M_bind. destruct (empty t) as [[?|?] ?]; reflexivity.
  - eexists. split; [apply memory_only_shutdown|reflexivity].
Qed.

Lemma after_disabled o t :
  no_track t = true -> no_track (after o t) = true /\ trace (after o t) = trace t.
Proof.
  intros H. destruct (is_recreate o) eqn:E.
  - destruct o; try discriminate. cbn. rewrite (recreate_disabled_eq t H). auto.
  - destruct (memory_only_after o E) as (m & Hm & ->).
    destruct (Hm t) as (_ & _ & N & T). rewrite N, T, H, app_nil_r. auto.
Qed.

Lemma after_all_cons o ops t : after_all (o :: ops) t = after_all ops (after o t).
Proof. reflexivity. Qed.

Lemma after_all_disabled ops : forall t,
  no_track t = true -> trace (after_all ops t) = trace t.
Proof.
  induction ops as [|o ops IH]; intros t H; [reflexivity|]. rewrite after_all_cons.
  destruct (after_disabled o t H) as [N T]. rewrite (IH _ N). exact T.
Qed.

Lemma after_same_data o t1 t2 :
  is_recreate o = false -> data t1 = data t2 -> data (after o t1) = data (after o t2).
Proof.
  intros E D. destruct (memory_only_after o E) as (m & Hm & Ha). rewrite !Ha.
  destruct (Hm t1) as (_ & D1 & _), (Hm t2) as (_ & D2 & _). rewrite D1, D2.
  unfold enabled_fresh. rewrite D. reflexivity.
Qed.

Lemma after_all_same_data ops : forall t1 t2,
  forallb (fun o => negb (is_recreate o)) ops = true ->
  data t1 = data t2 -> data (after_all ops t1) = data (after_all ops t2).
Proof.
  induction ops as [|o ops IH]; intros t1 t2 H D; [exact D|].
  rewrite !after_all_cons. cbn in H.
  apply andb_true_iff in H as [Ho H]. apply negb_true_iff in Ho.
  apply IH; [exact H|]. apply after_same_data; assumption.
Qed.

Lemma same_data_answers t1 t2 :
  data t1 = data t2 ->
  fst (empty t1) = fst (empty t2) /\ forall name, fst (get name t1) = fst (get name t2).
Proof.
  intros D. split; [|intros name].
  - destruct (memory_only_empty t1) as (R1 & _), (memory_only_empty t2) as (R2 & _).
    rewrite R1, R2. unfold enabled_fresh. rewrite D. reflexivity.
  - destruct (memory_only_get name t1) as (R1 & _), (memory_only_get name t2) as (R2 & _).
    rewrite R1, R2. unfold enabled_fresh. rewrite D. reflexivity.
Qed.

(** C8. With [config.no_track] set, building the tracker succeeds
    whatever is on disk and leaves the empty skeleton in memory; after
    any sequence of calls the tracker has performed no effect at all: no
    write, no delete, no job submitted, worker never started.  [empty]
    and [get] answer as on an enabled tracker built where no backing
    document exists, right after construction and after any sequence of
    calls without [recreate]. *)
Theorem disabled_mode_no_effects (file : backing) (ops : list operation) :
  __init__ true file
  = (Ok tt, {| no_track := true; data := default_data; trace := [] |})
  /\ trace (after_all ops (snd (__init__ true file))) = []
  /\ fst (empty (snd (__init__ true file))) = Ok true
  /\ (forall name, fst (get name (snd (__init__ true file))) = Ok None)
  /\ (forallb (fun o => negb (is_recreate o)) ops = true ->
      fst (empty (after_all ops (snd (__init__ true file))))
      = fst (empty (after_all ops (snd (__init__ false Missing))))
      /\ forall name,
           fst (get name (after_all ops (snd (__init__ true file))))
           = fst (get name (after_all ops (snd (__init__ false Missing))))).
Proof.
  split; [reflexivity|]. split; [|split; [reflexivity|split; [reflexivity|]]].
  - rewrite after_all_disabled; reflexivity.
  - intros H. apply same_data_answers. apply after_all_same_data; [exact H|reflexivity].
Qed.

Lemma disabled_mode_no_effects_witness :
  trace (after_all [call_add_file_info "Ch.1" (Some "abc") None false true;
                    call_add_image_info "Ch.1" "1.png" "h1" "abc";
                    call_toggle_complete "Ch.1" true; call_shutdown]
           (snd (__init__ true (Document (JObj []))))) = []
  /\ fst (empty (after_all [call_add_file_info "Ch.1" (Some "abc") None false true;
                            call_add_image_info "Ch.1" "1.png" "h1" "abc";
                            call_toggle_complete "Ch.1" true; call_shutdown]
                   (snd (__init__ true (Document (JObj []))))))
     = fst (empty (after_all [call_add_file_info "Ch.1" (Some "abc") None false true;
                              call_add_image_info "Ch.1" "1.png" "h1" "abc";
                              call_toggle_complete "Ch.1" true; call_shutdown]
                     (snd (__init__ false Missing)))).
Proof.
  pose proof (disabled_mode_no_effects (Document (JObj []))
    [call_add_file_info "Ch.1" (Some "abc") None false true;
     call_add_image_info "Ch.1" "1.png" "h1" "abc";
     call_toggle_complete "Ch.1" true; call_shutdown]) as (_ & T & _ & _ & S).
  split; [exact T|]. exact (proj1 (S eq_refl)).
Defined.

(** ** [sorted] *)

Lemma mapM_res_cons {A B : Type} (f : A -> res B) x l :
  mapM f (x :: l)
  = match f x with
    | Ok y => match mapM f l with
              | Ok k => Ok (y :: k)
              | Raise e => Raise e
              end
    | Raise e => Raise e
    end.
Proof. reflexivity. Qed.

Lemma mapM_res {A B : Type} (f : A -> res B) l ks :
  mapM f l = Ok ks <-> Forall2 (fun x k => f x = Ok k) l ks.
Proof.
  revert ks. induction l as [|x l IH]; intros ks.
  - cbn. split.
    + intros [= <-]. constructor.
    + intros H. inversion H. reflexivity.
  - rewrite mapM_res_cons. split.
    + destruct (f x) as [k|] eqn:E; [|discriminate].
      destruct (mapM f l) as [ks'|] eqn:E'; [|discriminate].
      intros [= <-]. constructor; [exact E|]. apply IH. reflexivity.
    + intros H. inversion H as [|? k ? ks' Hk Hks]; subst.
      rewrite Hk. apply IH in Hks. rewrite Hks. reflexivity.
Qed.

Lemma insert_sorted_perm {A : Type} k (x : A) l : insert_sorted k x l ≡ₚ (k, x) :: l.
Proof.
  induction l as [|[k' y] l IH]; cbn; [reflexivity|].
  destruct (k <=? k')%Z; [reflexivity|].
  rewrite IH. apply Permutation_swap.
Qed.

Lemma sort_pairs_perm {A : Type} (l : list (Z * A)) : sort_pairs l ≡ₚ l.
Proof.
  induction l as [|[k x] l IH]; cbn; [reflexivity|].
  rewrite insert_sorted_perm, IH. reflexivity.
Qed.

Lemma insert_sorted_sorted {A : Type} k (x : A) l :
  StronglySorted key_le l -> StronglySorted key_le (insert_sorted k x l).
Proof.
  induction 1 as [|[k' y] l Hl IH Hall]; cbn.
  - repeat constructor.
  - destruct (k <=? k')%Z eqn:E.
    + apply Z.leb_le in E. constructor; [constructor; assumption|].
      constructor; [exact E|].
      eapply Forall_impl; [exact Hall|]. unfold key_le. cbn. intros; lia.
    + apply Z.leb_gt in E. constructor; [exact IH|].
      rewrite (insert_sorted_perm k x l). constructor; [|exact Hall].
      unfold key_le. cbn. lia.
Qed.

Lemma sort_pairs_sorted {A : Type} (l : list (Z * A)) : StronglySorted key_le (sort_pairs l).
Proof.
  induction l as [|[k x] l IH]; cbn; [constructor|]. apply insert_sorted_sorted, IH.
Qed.

Lemma StronglySorted_fst {A : Type} (l : list (Z * A)) :
  StronglySorted key_le l -> StronglySorted Z.le (map fst l).
Proof.
  induction 1 as [|p l Hl IH Hall]; cbn; constructor; [exact IH|].
  apply Forall_fmap. exact Hall.
Qed.

(** What [sorted] returns: the same elements, keys ascending. *)
Lemma sorted_spec {A : Type} (key : A -> res Z) l keys :
  mapM key l = Ok keys ->
  exists l' keys',
    sorted l key = Ok l' /\ l' ≡ₚ l
    /\ mapM key l' = Ok keys' /\ StronglySorted Z.le keys'.
Proof.
  intros Hk. unfold sorted. rewrite Hk. cbn.
  set (sp := sort_pairs (zip keys l)).
  exists (map snd sp), (map fst sp).
  apply mapM_res in Hk.
  pose proof (Forall2_length _ _ _ Hk) as Hlen.
  assert (Forall (fun p => key (snd p) = Ok (fst p)) (zip keys l)) as Hz.
  { clear -Hk. induction Hk; cbn; constructor; auto. }
  assert (Forall (fun p => key (snd p) = Ok (fst p)) sp) as Hsp.
  { unfold sp. rewrite sort_pairs_perm. exact Hz. }
  split; [reflexivity|]. split; [|split].
  - unfold sp. rewrite sort_pairs_perm. rewrite snd_zip by lia. reflexivity.
  - apply mapM_res. clear -Hsp. induction Hsp; cbn; constructor; auto.
  - apply StronglySorted_fst, sort_pairs_sorted.
Qed.

(** ** [add_image_info] *)

Lemma py_eq_str x s : py_eq x (JStr s) = true <-> x = JStr s.
Proof.
  destruct x; cbn; split; try discriminate.
  - intros H. apply String.eqb_eq in H. congruence.
  - intros [= ->]. apply String.eqb_refl.
Qed.

Lemma ImageInfo_eq_new e img_name hash chap_id :
  ImageInfo_eq e (new_image img_name hash chap_id) = true <-> e = new_image img_name hash chap_id.
Proof.
  unfold ImageInfo_eq, new_image. cbn. rewrite !andb_true_iff, !py_eq_str.
  destruct e as [n h c]; cbn. split.
  - intros [[-> ->] ->]. reflexivity.
  - intros [= -> -> ->]. auto.
Qed.

Lemma py_remove_spec {A B : Type} (eq : A -> B -> bool) x l :
  match py_remove eq x l with
  | Some l' =>
      exists l1 e l2, l = l1 ++ e :: l2 /\ l' = l1 ++ l2 /\ eq e x = true
                      /\ Forall (fun y => eq y x = false) l1
  | None => Forall (fun y => eq y x = false) l
  end.
Proof.
  induction l as [|e l IH]; cbn; [constructor|].
  destruct (eq e x) eqn:E.
  - exists [], e, l. repeat split; auto.
  - destruct (py_remove eq x l) as [l'|]; cbn.
    + destruct IH as (l1 & e' & l2 & -> & -> & He & Hl1).
      exists (e :: l1), e', l2. repeat split; auto.
    + constructor; assumption.
Qed.



Lemma add_image_info_run t name img_name hash chap_id fi images keys :
  get name t = (Ok (Some fi), t) ->
  fi_images fi = Some images ->
  mapM get_page_image
    (default images (py_remove ImageInfo_eq (new_image img_name hash chap_id) images)
     ++ [new_image img_name hash chap_id]) = Ok keys ->
  exists t' images' keys',
    add_image_info name img_name hash chap_id t = (Ok tt, t')
    /\ get name t' = (Ok (Some (with_images fi images')), t')
    /\ images' ≡ₚ default images
                    (py_remove ImageInfo_eq (new_image img_name hash chap_id) images)
                  ++ [new_image img_name hash chap_id]
    /\ mapM get_page_image images' = Ok keys'
    /\ StronglySorted Z.le keys'.
Proof.
  intros Hget Him Hkeys.
  destruct (get_inv _ _ _ _ Hget) as (files & i & Hf & Hloop & Hi).
  destruct (data_files_inv _ _ Hf) as (items & Hd).
  pose proof (get_object_eq name t files i fi Hf Hloop Hi) as Hobj.
  destruct (sorted_spec get_page_image _ _ Hkeys) as (images3 & keys' & Hs & Hperm & Hk' & Hsorted).
  set (fi' := with_images fi images3).
  set (d' := PyDict items (Some (<[i := fi']> files))).
  set (t1 := {| no_track := no_track t; data := d'; trace := trace t |}).
  exists (if no_track t then t1 else with_trace t1 d' [queue_submit]), images3, keys'.
  assert (Hd' : data (if no_track t then t1 else with_trace t1 d' [queue_submit]) = d').
  { destruct (no_track t); reflexivity. }
  split; [|split; [|auto]].
  - unfold add_image_info. run. rewrite Hobj. cbn. rewrite Him.
    unfold set_file, _write. run. rewrite Hf. cbn. rewrite Hd. cbn.
    fold (new_image img_name hash chap_id). rewrite Hs. cbn.
    unfold data_files. cbn. rewrite list_insert_insert_eq.
    destruct (no_track t); reflexivity.
  - assert (Hf' : data_files (data (if no_track t then t1 else with_trace t1 d' [queue_submit]))
                  = Ok (<[i := fi']> files)) by (rewrite Hd'; reflexivity).
    rewrite (get_eq _ _ name Hf').
    rewrite (get_loop_lookup name _ i fi'); [reflexivity| |].
    + rewrite (get_loop_insert name files i fi fi'); auto.
    + apply list_lookup_insert_eq. eapply lookup_lt_Some; eauto.
Qed.

Lemma mapM_res_Forall {A B : Type} (f : A -> res B) l :
  (exists ks, mapM f l = Ok ks) <-> Forall (fun x => exists k, f x = Ok k) l.
Proof.
  split.
  - intros [ks H]. apply mapM_res in H. induction H; constructor; eauto.
  - induction 1 as [|x l [k Hk] _ [ks IH]].
    + exists []. reflexivity.
    + exists (k :: ks). rewrite mapM_res_cons, Hk, IH. reflexivity.
Qed.

Lemma remove_append_pages (im : ImageInfo) images :
  Forall (fun x => exists k, get_page_image x = Ok k) (images ++ [im]) ->
  Forall (fun x => exists k, get_page_image x = Ok k)
    (default images (py_remove ImageInfo_eq im images) ++ [im]).
Proof.
  rewrite !Forall_app. intros [H1 H2]. split; [|exact H2].
  pose proof (py_remove_spec ImageInfo_eq im images) as R.
  destruct (py_remove ImageInfo_eq im images) as [l'|]; cbn [from_option]; unfold id; [|exact H1].
  destruct R as (l1 & e & l2 & -> & -> & _ & _).
  rewrite Forall_app, Forall_cons in H1. rewrite Forall_app. tauto.
Qed.



(** ** [_check_data] *)

Lemma py_in_false {A B : Type} (eq : A -> B -> bool) x l :
  py_in eq x l = false <-> forall e, In e l -> eq e x = false.
Proof.
  unfold py_in. split.
  - intros H e He. destruct (eq e x) eqn:E; [|reflexivity].
    assert (existsb (fun e => eq e x) l = true) by (apply existsb_exists; eauto). congruence.
  - intros H. destruct (existsb _ l) eqn:E; [|reflexivity].
    apply existsb_exists in E as (e & He & Heq). rewrite (H e He) in Heq. discriminate.
Qed.

Lemma distinct_records_nil : distinct_records [].
Proof. intros i j a b _ H. discriminate. Qed.

Lemma distinct_records_snoc l x :
  distinct_records l -> py_in FileInfo_eq x l = false -> distinct_records (l ++ [x]).
Proof.
  intros Hl Hx i j a b Hij Ha Hb.
  pose proof (lookup_lt_Some _ _ _ Hb) as Hj. rewrite length_app in Hj. cbn in Hj.
  destruct (decide (j < length l)) as [Hlt|Hge].
  - rewrite lookup_app_l in Ha, Hb by lia. eauto.
  - assert (j = length l) as -> by lia.
    rewrite lookup_app_l in Ha by lia.
    rewrite lookup_app_r, Nat.sub_diag in Hb by lia. injection Hb as <-.
    apply (proj1 (py_in_false FileInfo_eq x l) Hx).
    apply list_elem_of_In. eapply list_elem_of_lookup_2. exact Ha.
Qed.

(** Whatever the entries are, a run of the loop that returns gives the
    fresh skeleton or a list without two equal records. *)
Lemma check_loop_distinct entries : forall index new_files t r t',
  check_loop entries index new_files t = (Ok r, t') ->
  distinct_records new_files ->
  match r with
  | inl d => d = default_data
  | inr files => distinct_records files
  end.
Proof.
  induction entries as [|file entries IH]; intros index new_files t r t' H Hd.
  - cbn in H. injection H as <- _. exact Hd.
  - cbn [check_loop] in H. destruct (_FileInfo file) as [fi|[k| | |]].
    + destruct (py_in FileInfo_eq fi new_files) eqn:E.
      * run. eapply IH; eauto.
      * eapply IH; [exact H|]. apply distinct_records_snoc; assumption.
    + unfold _write_new in H. run.
      destruct (no_track t); cbn in H; injection H as <- _; reflexivity.
    + discriminate.
    + discriminate.
    + discriminate.
Qed.

Lemma with_trace_nil t : with_trace t (data t) [] = t.
Proof. destruct t. unfold with_trace. cbn. rewrite app_nil_r. reflexivity. Qed.

Lemma check_loop_ok entries : forall recs index new_files t,
  mapM _FileInfo entries = Ok recs ->
  check_loop entries index new_files t
  = (Ok (inr (kept_files recs new_files)),
     with_trace t (data t) (duplicate_warnings recs index new_files)).
Proof.
  induction entries as [|file entries IH]; intros recs index new_files t H.
  - cbn in H. injection H as <-. cbn. rewrite with_trace_nil. reflexivity.
  - rewrite mapM_res_cons in H. cbn [check_loop].
    destruct (_FileInfo file) as [fi|]; [|discriminate].
    destruct (mapM _FileInfo entries) as [recs'|] eqn:E; [|discriminate].
    injection H as <-. cbn [kept_files duplicate_warnings].
    destruct (py_in FileInfo_eq fi new_files).
    + run. rewrite (IH recs' _ _ _ eq_refl). unfold with_trace. cbn.
      rewrite <- app_assoc. reflexivity.
    + apply IH. reflexivity.
Qed.

Lemma covers_py_in new_files earlier x :
  covers new_files earlier ->
  py_in FileInfo_eq x new_files = py_in FileInfo_eq x earlier.
Proof.
  intros [H1 H2]. destruct (py_in FileInfo_eq x earlier) eqn:E.
  - apply py_in_true in E as (e & He & Hex). apply py_in_true.
    destruct (H2 e He) as [Hin|(a & Ha & Hae)]; [eauto|].
    exists a. split; [exact Ha|]. eapply FileInfo_eq_trans; eauto.
  - apply py_in_false. intros a Ha.
    exact (proj1 (py_in_false FileInfo_eq x earlier) E a (H1 a Ha)).
Qed.

Lemma covers_skip new_files earlier x :
  covers new_files earlier -> py_in FileInfo_eq x new_files = true ->
  covers new_files (earlier ++ [x]).
Proof.
  intros [H1 H2] Hx. split.
  - intros a Ha. apply in_or_app. left. auto.
  - intros e He. apply in_app_or in He as [He|[<-|[]]]; [auto|].
    right. apply py_in_true in Hx. exact Hx.
Qed.

Lemma covers_keep new_files earlier x :
  covers new_files earlier -> covers (new_files ++ [x]) (earlier ++ [x]).
Proof.
  intros [H1 H2]. split.
  - intros a Ha. apply in_or_app. apply in_app_or in Ha as [Ha|Ha]; auto.
  - intros e He. apply in_app_or in He as [He|[<-|[]]].
    + destruct (H2 e He) as [Hin|(a & Ha & Hae)].
      * left. apply in_or_app. auto.
      * right. exists a. split; [apply in_or_app; auto|exact Hae].
    + left. apply in_or_app. right. left. reflexivity.
Qed.

(** The loop keeps exactly the records at the first positions. *)
Lemma kept_files_positions l : forall new_files earlier,
  covers new_files earlier ->
  exists kept,
    kept_files l new_files = new_files ++ kept
    /\ Forall2 (fun p x => (earlier ++ l) !! p = Some x) (first_positions earlier l) kept.
Proof.
  induction l as [|x l IH]; intros new_files earlier Hc.
  - exists []. cbn. rewrite app_nil_r. split; [reflexivity|constructor].
  - cbn [kept_files first_positions]. rewrite (covers_py_in _ _ x Hc).
    destruct (py_in FileInfo_eq x earlier) eqn:E.
    + rewrite <- (covers_py_in _ _ x Hc) in E.
      destruct (IH new_files (earlier ++ [x]) (covers_skip _ _ _ Hc E)) as (kept & Hk & HF).
      exists kept. rewrite <- app_assoc in HF. split; [exact Hk|exact HF].
    + destruct (IH (new_files ++ [x]) (earlier ++ [x]) (covers_keep _ _ x Hc)) as (kept & Hk & HF).
      exists (x :: kept). rewrite <- app_assoc in Hk, HF. cbn [app] in *.
      split; [exact Hk|]. constructor; [|exact HF].
      rewrite lookup_app_r by lia. rewrite Nat.sub_diag. reflexivity.
Qed.

Lemma first_positions_bounds l : forall earlier,
  Forall (fun p => length earlier <= p < length (earlier ++ l)) (first_positions earlier l).
Proof.
  induction l as [|x l IH]; intros earlier; cbn [first_positions]; [constructor|].
  apply Forall_app. split.
  - destruct (py_in _ _ _); constructor; [|constructor].
    rewrite length_app. cbn. lia.
  - specialize (IH (earlier ++ [x])). rewrite <- app_assoc in IH. cbn [app] in IH.
    eapply Forall_impl; [exact IH|]. cbn. intros p. rewrite length_app. cbn. lia.
Qed.

Lemma first_positions_sorted l : forall earlier,
  StronglySorted lt (first_positions earlier l).
Proof.
  induction l as [|x l IH]; intros earlier; cbn [first_positions]; [constructor|].
  pose proof (first_positions_bounds l (earlier ++ [x])) as B.
  destruct (py_in _ _ _); cbn [app]; [apply IH|].
  constructor; [apply IH|].
  eapply Forall_impl; [exact B|]. cbn. intros p. rewrite length_app. cbn. lia.
Qed.

(** A position is kept exactly when no record before it equals the
    record it holds. *)
Lemma first_positions_spec l : forall earlier p,
  In p (first_positions earlier l) <->
  length earlier <= p < length (earlier ++ l)
  /\ forall j y x, j < p -> (earlier ++ l) !! j = Some y -> (earlier ++ l) !! p = Some x ->
                   FileInfo_eq y x = false.
Proof.
  induction l as [|x l IH]; intros earlier p; cbn [first_positions].
  - rewrite app_nil_r. split; [intros []|intros [? _]; lia].
  - rewrite in_app_iff, IH, <- app_assoc. cbn [app].
    rewrite length_app. cbn [length].
    assert (Hx : (earlier ++ x :: l) !! length earlier = Some x).
    { rewrite lookup_app_r by lia. rewrite Nat.sub_diag. reflexivity. }
    split.
    + intros [Hp|[Hb Hp]]; [|split; [lia|exact Hp]].
      destruct (py_in FileInfo_eq x earlier) eqn:E; [destruct Hp|].
      destruct Hp as [<-|[]]. split; [rewrite length_app; cbn; lia|].
      intros j y x' Hj Hy Hx'. rewrite Hx in Hx'. injection Hx' as <-.
      rewrite lookup_app_l in Hy by lia.
      apply (proj1 (py_in_false FileInfo_eq x earlier) E).
      apply list_elem_of_In. eapply list_elem_of_lookup_2. exact Hy.
    + intros [Hb Hp]. destruct (decide (p = length earlier)) as [->|Hne].
      * left. destruct (py_in FileInfo_eq x earlier) eqn:E; [|left; reflexivity].
        apply py_in_true in E as (e & He & Hex).
        apply list_elem_of_In, list_elem_of_lookup_1 in He as [j Hj].
        pose proof (lookup_lt_Some _ _ _ Hj) as Hlt.
        assert ((earlier ++ x :: l) !! j = Some e) as Hj'
          by (rewrite lookup_app_l by lia; exact Hj).
        rewrite (Hp j e x Hlt Hj' Hx) in Hex. discriminate.
      * right. split; [lia|exact Hp].
Qed.

Lemma kept_files_covers l : forall new_files earlier,
  covers new_files earlier -> covers (kept_files l new_files) (earlier ++ l).
Proof.
  induction l as [|x l IH]; intros new_files earlier Hc; cbn [kept_files].
  - rewrite app_nil_r. exact Hc.
  - replace (earlier ++ x :: l) with ((earlier ++ [x]) ++ l) by (rewrite <- app_assoc; reflexivity).
    destruct (py_in FileInfo_eq x new_files) eqn:E.
    + apply IH, covers_skip; assumption.
    + apply IH, covers_keep; assumption.
Qed.

Lemma covers_nil : covers [] [].
Proof. split; intros ? []. Qed.

Lemma check_data_ok data0 fv entries recs t :
  subscript data0 "files" = Ok fv ->
  py_iter fv = Ok entries ->
  mapM _FileInfo entries = Ok recs ->
  _check_data data0 t
  = (Ok (PyDict (other_items data0) (Some (kept_files recs []))),
     with_trace t (data t) (duplicate_warnings recs 0 [])).
Proof.
  intros H1 H2 H3. unfold _check_data. rewrite H1. run. rewrite H2.
  rewrite (check_loop_ok entries recs 0 [] t H3). reflexivity.
Qed.

Lemma check_data_distinct data0 t d t' files :
  _check_data data0 t = (Ok d, t') -> data_files d = Ok files -> distinct_records files.
Proof.
  unfold _check_data. intros H Hd.
  destruct (subscript data0 "files") as [fv|[k| | |]]; try discriminate.
  - run. destruct (py_iter fv) as [entries|]; [|discriminate].
    destruct (check_loop entries 0 [] t) as [[r|e] t1] eqn:E; [|discriminate].
    pose proof (check_loop_distinct entries 0 [] t r t1 E distinct_records_nil) as Hr.
    destruct r as [d0|fs]; injection H as <- _.
    + subst d0. injection Hd as <-. apply distinct_records_nil.
    + injection Hd as <-. exact Hr.
  - run. injection H as <- _. discriminate.
Qed.

(** C1, as worded, fails: two entries named ["X"] that differ in their
    ["id"] are both retained by the validation pass of a load. *)
Lemma check_data_keeps_same_name :
  ~ (forall doc files,
       data_files (data (snd (__init__ false (Document doc)))) = Ok files ->
       unique_names files).
Proof.
  intros H.
  specialize (H (JObj [("comment", _comment);
                       ("files", JArr [sample_entry "X" "a"; sample_entry "X" "b"])])
                [sample_file "X" "a"; sample_file "X" "b"] eq_refl
                0 1 (sample_file "X" "a") (sample_file "X" "b")).
  cbn in H. specialize (H (le_n 1) eq_refl eq_refl). discriminate.
Qed.

(** C1, amended. Whenever the validation pass returns a root, no record
    of its files list is equal ([_FileInfo.__eq__], all six fields) to a
    later one; and when every entry constructs, the first occurrence
    wins: the files list is the document's records read off, in document
    order, at exactly the positions whose record has no equal record
    before it, so each record kept is the very record the document has
    at its first occurrence, and each record dropped is equal to one
    kept. *)
Theorem check_data_no_equal_records (data0 : json) (t t' : DownloadTracker)
    (d : pydata) (files : list FileInfo) :
  _check_data data0 t = (Ok d, t') ->
  data_files d = Ok files ->
  distinct_records files
  /\ (forall fv entries recs,
        subscript data0 "files" = Ok fv -> py_iter fv = Ok entries ->
        mapM (M := res) _FileInfo entries = Ok recs ->
        (forall a, In a files -> In a recs)
        /\ (forall x, In x recs ->
              In x files \/ exists a, In a files /\ FileInfo_eq a x = true)
        /\ exists positions,
             Forall2 (fun p x => recs !! p = Some x) positions files
             /\ StronglySorted lt positions
             /\ forall p, In p positions <->
                          p < length recs
                          /\ forall j y x, j < p -> recs !! j = Some y ->
                                           recs !! p = Some x ->
                                           FileInfo_eq y x = false).
Proof.
  intros H Hd. split; [eapply check_data_distinct; eauto|].
  intros fv entries recs H1 H2 H3.
  rewrite (check_data_ok data0 fv entries recs t H1 H2 H3) in H.
  injection H as <- _. injection Hd as <-.
  destruct (kept_files_covers recs [] [] covers_nil) as [Hin Hcov].
  split; [exact Hin|]. split; [exact Hcov|].
  destruct (kept_files_positions recs [] [] covers_nil) as (kept & Hk & HF).
  cbn [app] in Hk, HF. rewrite Hk.
  exists (first_positions [] recs).
  split; [exact HF|]. split; [apply first_positions_sorted|].
  intros p. rewrite first_positions_spec. cbn [app length].
  split; intros [Hb Hp]; (split; [lia|exact Hp]).
Qed.

Lemma check_data_no_equal_records_witness :
  distinct_records [sample_file "X" "a"; sample_file "X" "b"]
  /\ exists positions,
       Forall2 (fun p x => [sample_file "X" "a"; sample_file "X" "b"; sample_file "X" "a"] !! p
                           = Some x)
         positions [sample_file "X" "a"; sample_file "X" "b"]
       /\ StronglySorted lt positions
       /\ ~ In 2 positions.
Proof.
  destruct (check_data_no_equal_records
    (JObj [("files", JArr [sample_entry "X" "a"; sample_entry "X" "b"; sample_entry "X" "a"])])
    (sample_tracker false [])
    (with_trace (sample_tracker false []) (data (sample_tracker false [])) [log_warning 2])
    (PyDict [] (Some [sample_file "X" "a"; sample_file "X" "b"]))
    [sample_file "X" "a"; sample_file "X" "b"] eq_refl eq_refl) as [Hd Hfirst].
  split; [exact Hd|].
  destruct (Hfirst
    (JArr [sample_entry "X" "a"; sample_entry "X" "b"; sample_entry "X" "a"])
    [sample_entry "X" "a"; sample_entry "X" "b"; sample_entry "X" "a"]
    [sample_file "X" "a"; sample_file "X" "b"; sample_file "X" "a"]
    eq_refl eq_refl eq_refl) as (_ & _ & positions & HF & HS & Hp).
  exists positions. split; [exact HF|]. split; [exact HS|].
  intros H2. apply Hp in H2 as [_ H2].
  specialize (H2 0 (sample_file "X" "a") (sample_file "X" "a") (Nat.lt_0_succ 1)
                eq_refl eq_refl).
  discriminate H2.
Defined.

(** C9. When every entry constructs, the files list that validation
    returns is the document's records read off at an increasing sequence
    of positions, and these are exactly the positions whose record has
    no equal record before it: what is kept stays in document order. *)
Theorem check_data_keeps_order (data0 fv : json) (entries : list json)
    (recs : list FileInfo) (t : DownloadTracker) :
  subscript data0 "files" = Ok fv ->
  py_iter fv = Ok entries ->
  mapM (M := res) _FileInfo entries = Ok recs ->
  exists t' new_files positions,
    _check_data data0 t = (Ok (PyDict (other_items data0) (Some new_files)), t')
    /\ Forall2 (fun p x => recs !! p = Some x) positions new_files
    /\ StronglySorted lt positions
    /\ forall p, In p positions <->
                 p < length recs
                 /\ forall j y x, j < p -> recs !! j = Some y -> recs !! p = Some x ->
                                  FileInfo_eq y x = false.
Proof.
  intros H1 H2 H3.
  destruct (kept_files_positions recs [] [] covers_nil) as (kept & Hk & HF).
  cbn [app] in Hk, HF.
  exists (with_trace t (data t) (duplicate_warnings recs 0 [])), kept, (first_positions [] recs).
  split; [|split; [exact HF|split; [apply first_positions_sorted|]]].
  - rewrite (check_data_ok data0 fv entries recs t H1 H2 H3), Hk. reflexivity.
  - intros p. rewrite first_positions_spec. cbn [app length].
    split; intros [Hb Hp]; (split; [lia|exact Hp]).
Qed.

Lemma check_data_keeps_order_witness :
  exists t' new_files positions,
    _check_data
      (JObj [("files", JArr [sample_entry "B" "b"; sample_entry "A" "a"; sample_entry "B" "b"])])
      (sample_tracker false [])
    = (Ok (PyDict [] (Some new_files)), t')
    /\ Forall2 (fun p x => [sample_file "B" "b"; sample_file "A" "a"; sample_file "B" "b"] !! p
                           = Some x) positions new_files
    /\ StronglySorted lt positions.
Proof.
  destruct (check_data_keeps_order
    (JObj [("files", JArr [sample_entry "B" "b"; sample_entry "A" "a"; sample_entry "B" "b"])])
    (JArr [sample_entry "B" "b"; sample_entry "A" "a"; sample_entry "B" "b"])
    [sample_entry "B" "b"; sample_entry "A" "a"; sample_entry "B" "b"]
    [sample_file "B" "b"; sample_file "A" "a"; sample_file "B" "b"]
    (sample_tracker false []) eq_refl eq_refl eq_refl)
    as (t' & new_files & positions & H1 & H2 & H3 & _).
  exists t', new_files, positions. split; [exact H1|]. split; [exact H2|exact H3].
Defined.

(** ** [_check_data] on a malformed entry *)

(** The first entry that lacks a key ends the loop, whatever follows
    it: the error is logged with its index, [delete_file] is given the
    directory, and the fresh skeleton is written and returned. *)
Lemma check_loop_malformed pre : forall recs bad post k index new_files t,
  mapM _FileInfo pre = Ok recs ->
  _FileInfo bad = Raise (KeyError k) ->
  no_track t = false ->
  check_loop (pre ++ bad :: post) index new_files t
  = (Ok (inl default_data),
     with_trace t (data t)
       (duplicate_warnings recs index new_files
        ++ [log_error (index + length pre); delete_file self_path; write_text default_data])).
Proof.
  induction pre as [|file pre IH]; intros recs bad post k index new_files t H Hbad Hnt.
  - cbn in H. injection H as <-. cbn [app check_loop]. rewrite Hbad.
    unfold _write_new. run. rewrite Hnt. cbn. unfold with_trace. cbn.
    rewrite Nat.add_0_r, <- !app_assoc, Hnt. reflexivity.
  - rewrite mapM_res_cons in H. cbn [app check_loop].
    destruct (_FileInfo file) as [fi|]; [|discriminate].
    destruct (mapM _FileInfo pre) as [recs'|] eqn:E; [|discriminate].
    injection H as <-. cbn [duplicate_warnings length].
    replace (index + S (length pre)) with (S index + length pre) by lia.
    destruct (py_in FileInfo_eq fi new_files).
    + run.
      rewrite (IH recs' bad post k (S index) new_files
                 {| no_track := no_track t; data := data t;
                    trace := trace t ++ [log_warning index] |} eq_refl Hbad Hnt).
      unfold with_trace. cbn. rewrite <- !app_assoc. reflexivity.
    + apply (IH recs' bad post k (S index) _ t eq_refl Hbad Hnt).
Qed.

Lemma load_malformed_entry doc fv pre bad post recs k :
  subscript doc "files" = Ok fv ->
  py_iter fv = Ok (pre ++ bad :: post) ->
  mapM _FileInfo pre = Ok recs ->
  _FileInfo bad = Raise (KeyError k) ->
  __init__ false (Document doc)
  = (Ok tt,
     {| no_track := false; data := default_data;
        trace := [queue_start] ++ duplicate_warnings recs 0 []
                 ++ [log_error (length pre); delete_file self_path;
                     write_text default_data; queue_submit] |}).
Proof.
  intros H1 H2 H3 H4. unfold __init__, _load, _check_data, _write. run.
  rewrite H1. run. rewrite H2.
  rewrite (check_loop_malformed pre recs bad post k 0 []
             {| no_track := false; data := PyDict [] None; trace := [queue_start] |}
             H3 H4 eq_refl).
  cbn. rewrite <- !app_assoc. reflexivity.
Qed.

(** C4. A document whose second entry has no ["id"]: the tracker ends
    with an empty files list, and the path handed to [delete_file] is
    the directory [self.path], not the backing document [self.file],
    which is never deleted. *)
Theorem check_data_malformed_entry :
  let doc := JObj [("comment", _comment);
                   ("files", JArr [sample_entry "A" "a"; sample_entry_no_id "X";
                                   sample_entry "B" "b"])] in
  __init__ false (Document doc)
  = (Ok tt, {| no_track := false; data := default_data;
               trace := [queue_start; log_error 1; delete_file self_path;
                         write_text default_data; queue_submit] |})
  /\ data_files (data (snd (__init__ false (Document doc)))) = Ok []
  /\ ~ In (delete_file self_file) (trace (snd (__init__ false (Document doc)))).
Proof.
  repeat split. cbn. intros H.
  repeat (destruct H as [H|H]; [discriminate H|]). exact H.
Qed.

(** * Further properties *)

(** ** Serialisation and loading *)

Lemma mapM_ImageInfo_data l : mapM _ImageInfo (map ImageInfo_data l) = Ok l.
Proof.
  induction l as [|[n h c] l IH]; [reflexivity|].
  cbn [map]. rewrite mapM_res_cons, IH. reflexivity.
Qed.

Lemma mapM_ChapterInfo_data l : mapM _ChapterInfo (map ChapterInfo_data l) = Ok l.
Proof.
  induction l as [|[n i] l IH]; [reflexivity|].
  cbn [map]. rewrite mapM_res_cons, IH. reflexivity.
Qed.

Lemma FileInfo_dumps_init fi : _FileInfo (FileInfo_dumps fi) = Ok fi.
Proof.
  destruct fi as [n i h c [imgs|] [chs|]]; unfold _FileInfo, FileInfo_dumps; cbn;
    rewrite ?mapM_ImageInfo_data; cbn; rewrite ?mapM_ChapterInfo_data; reflexivity.
Qed.

(** X1. Building a record from what the encoder writes for it gives the
    record back, for files (with their images and chapters), images and
    chapters alike. *)
Theorem records_dumps_init_roundtrip :
  (forall fi, _FileInfo (FileInfo_dumps fi) = Ok fi)
  /\ (forall im, _ImageInfo (ImageInfo_data im) = Ok im)
  /\ (forall ch, _ChapterInfo (ChapterInfo_data ch) = Ok ch).
Proof.
  split; [exact FileInfo_dumps_init|]. split.
  - intros [n h c]. reflexivity.
  - intros [n i]. reflexivity.
Qed.

Lemma mapM_FileInfo_dumps files : mapM _FileInfo (map FileInfo_dumps files) = Ok files.
Proof.
  induction files as [|fi files IH]; [reflexivity|].
  cbn [map]. rewrite mapM_res_cons, FileInfo_dumps_init, IH. reflexivity.
Qed.

Lemma assoc_None_Forall {A : Type} k (d : list (string * A)) :
  assoc k d = None <-> Forall (fun kv => fst kv ≠ k) d.
Proof.
  induction d as [|[k' v] d IH]; cbn.
  - split; [constructor|reflexivity].
  - destruct (String.eqb k' k) eqn:E.
    + apply String.eqb_eq in E. split; [discriminate|].
      intros H. inversion H; subst. cbn in *. congruence.
    + apply String.eqb_neq in E. rewrite IH. split.
      * intros H. constructor; assumption.
      * intros H. inversion H; assumption.
Qed.

Lemma assoc_app_None {A : Type} k (d1 d2 : list (string * A)) :
  assoc k d1 = None -> assoc k (d1 ++ d2) = assoc k d2.
Proof.
  induction d1 as [|[k' v] d1 IH]; cbn; [reflexivity|].
  destruct (String.eqb k' k); [discriminate|exact IH].
Qed.

Lemma filter_Forall_id {A : Type} (P : A -> Prop) `{forall x, Decision (P x)} (l : list A) :
  Forall P l -> filter P l = l.
Proof.
  induction 1 as [|x l Hx _ IH]; [reflexivity|].
  rewrite filter_cons_True by exact Hx. rewrite IH. reflexivity.
Qed.

Lemma dumps_files k items files :
  assoc "files" items = None ->
  subscript (dumps k (PyDict items (Some files))) "files"
  = Ok (JArr (map FileInfo_dumps files))
  /\ other_items (dumps k (PyDict items (Some files))) = items.
Proof.
  intros H. apply assoc_None_Forall in H.
  assert (Forall (fun kv : string * json => fst kv ≠ "files") (take k items)) as Ht
    by (apply Forall_take; exact H).
  assert (Forall (fun kv : string * json => fst kv ≠ "files") (drop k items)) as Hd
    by (apply Forall_drop; exact H).
  split.
  - cbn. rewrite assoc_app_None by (apply assoc_None_Forall; exact Ht). reflexivity.
  - cbn. rewrite filter_app, filter_cons_False by (cbn; auto).
    rewrite !filter_Forall_id by assumption. apply take_drop.
Qed.

(** A list without equal records goes through the loop whole and
    without a warning. *)
Lemma kept_files_distinct l : forall new_files index,
  distinct_records (new_files ++ l) ->
  kept_files l new_files = new_files ++ l
  /\ duplicate_warnings l index new_files = [].
Proof.
  induction l as [|x l IH]; intros new_files index Hd; cbn [kept_files duplicate_warnings].
  - rewrite app_nil_r. auto.
  - assert (py_in FileInfo_eq x new_files = false) as E.
    { apply py_in_false. intros e He.
      apply list_elem_of_In, list_elem_of_lookup_1 in He as [i Hi].
      pose proof (lookup_lt_Some _ _ _ Hi) as Hlt.
      apply (Hd i (length new_files) e x Hlt).
      - rewrite lookup_app_l by lia. exact Hi.
      - rewrite lookup_app_r by lia. rewrite Nat.sub_diag. reflexivity. }
    rewrite E. specialize (IH (new_files ++ [x]) (S index)).
    rewrite <- app_assoc in IH. cbn [app] in IH. apply IH. exact Hd.
Qed.

Lemma check_data_dumps k items files t :
  assoc "files" items = None ->
  distinct_records files ->
  _check_data (dumps k (PyDict items (Some files))) t = (Ok (PyDict items (Some files)), t).
Proof.
  intros Hi Hd. destruct (dumps_files k items files Hi) as [Hs Ho].
  rewrite (check_data_ok _ _ (map FileInfo_dumps files) files t Hs eq_refl
             (mapM_FileInfo_dumps files)).
  destruct (kept_files_distinct files [] 0 Hd) as [-> ->].
  rewrite Ho, with_trace_nil. reflexivity.
Qed.

(** X2. A root whose files hold no two equal records survives a write
    and a load: started on the document written from it, the tracker
    holds that same root, logs and deletes nothing, and queues the one
    write [_load] always queues. *)
Theorem load_dumps_roundtrip (k : nat) (items : list (string * json))
    (files : list FileInfo) :
  assoc "files" items = None ->
  distinct_records files ->
  __init__ false (Document (dumps k (PyDict items (Some files))))
  = (Ok tt, {| no_track := false; data := PyDict items (Some files);
               trace := [queue_start; queue_submit] |}).
Proof.
  intros Hi Hd. unfold __init__, _load. run.
  rewrite (check_data_dumps k items files _ Hi Hd). reflexivity.
Qed.

Lemma load_dumps_roundtrip_witness :
  __init__ false
    (Document (JObj [("comment", _comment);
                     ("files", JArr [FileInfo_dumps (sample_file "X" "a");
                                     FileInfo_dumps sample_volume])]))
  = (Ok tt, {| no_track := false;
               data := PyDict [("comment", _comment)] (Some [sample_file "X" "a"; sample_volume]);
               trace := [queue_start; queue_submit] |}).
Proof.
  refine (load_dumps_roundtrip 1 [("comment", _comment)] [sample_file "X" "a"; sample_volume]
            eq_refl _).
  intros [|[|i]] [|[|j]] a b Hij Ha Hb; try lia; try discriminate.
  injection Ha as <-. injection Hb as <-. reflexivity.
Defined.

(** What the validation pass returns as a root has no ["files"] among
    its other items. *)
Lemma check_data_root data0 t items files t' :
  _check_data data0 t = (Ok (PyDict items (Some files)), t') ->
  assoc "files" items = None.
Proof.
  unfold _check_data. intros H.
  destruct (subscript data0 "files") as [fv|[k| | |]]; try discriminate.
  - run. destruct (py_iter fv) as [entries|]; [|discriminate].
    destruct (check_loop entries 0 [] t) as [[r|e] t1] eqn:E; [|discriminate].
    pose proof (check_loop_distinct entries 0 [] t r t1 E distinct_records_nil) as Hr.
    destruct r as [d0|fs]; inversion H; subst.
    + injection H1 as <- _. reflexivity.
    + apply assoc_None_Forall.
      destruct data0 as [| | | | |d]; cbn; [constructor..|].
      apply List.Forall_forall. intros kv Hkv.
      apply list_elem_of_In, list_elem_of_filter in Hkv. tauto.
Qed.

Lemma init_document_inv doc t1 :
  __init__ false (Document doc) = (Ok tt, t1) ->
  exists t', _check_data doc {| no_track := false; data := PyDict [] None;
                                trace := [queue_start] |} = (Ok (data t1), t').
Proof.
  unfold __init__, _load, _write. run.
  destruct (_check_data doc _) as [[d|e] t'] eqn:E; [|discriminate].
  cbn. destruct (no_track t'); cbn; intros [= <-]; cbn; eauto.
Qed.

(** X3. Repair is idempotent across a write: whatever root a load
    leaves in memory, a tracker started on the document written from
    that root holds the same root again, with no warning, no error and
    no delete. *)
Theorem load_repair_idempotent (doc : json) (t1 : DownloadTracker) (k : nat)
    (items : list (string * json)) (files : list FileInfo) :
  __init__ false (Document doc) = (Ok tt, t1) ->
  data t1 = PyDict items (Some files) ->
  __init__ false (Document (dumps k (data t1)))
  = (Ok tt, {| no_track := false; data := data t1;
               trace := [queue_start; queue_submit] |}).
Proof.
  intros H Hd. destruct (init_document_inv doc t1 H) as [t' Hc].
  rewrite Hd in *. unfold __init__, _load. run.
  rewrite (check_data_dumps k items files _
             (check_data_root _ _ _ _ _ Hc) (check_data_distinct _ _ _ _ _ Hc eq_refl)).
  reflexivity.
Qed.

Lemma load_repair_idempotent_witness :
  __init__ false
    (Document (dumps 0 (PyDict [] (Some [sample_file "X" "a"; sample_file "X" "b"]))))
  = (Ok tt, {| no_track := false;
               data := PyDict [] (Some [sample_file "X" "a"; sample_file "X" "b"]);
               trace := [queue_start; queue_submit] |}).
Proof.
  exact (load_repair_idempotent
    (JObj [("files", JArr [sample_entry "X" "a"; sample_entry "X" "b"; sample_entry "X" "a"])])
    {| no_track := false;
       data := PyDict [] (Some [sample_file "X" "a"; sample_file "X" "b"]);
       trace := [queue_start; log_warning 2; queue_submit] |}
    0 [] [sample_file "X" "a"; sample_file "X" "b"] eq_refl eq_refl).
Defined.

(** ** Exceptions of the load *)

Lemma res_bind_raise {A B : Type} (m : res A) (f : A -> res B) e :
  m ≫= f = Raise e -> m = Raise e \/ exists a, m = Ok a /\ f a = Raise e.
Proof. destruct m as [a|e']; cbn; [eauto|]. intros [= ->]. auto. Qed.

Lemma subscript_raise data0 k e : subscript data0 k = Raise e -> key_or_type e.
Proof.
  unfold subscript, key_or_type. destruct data0 as [| | | | |d]; try (intros [= <-]; auto).
  destruct (assoc k d); [discriminate|]. intros [= <-]. eauto.
Qed.

Lemma mapM_res_raise {A B : Type} (f : A -> res B) l e :
  mapM f l = Raise e -> exists x, In x l /\ f x = Raise e.
Proof.
  induction l as [|x l IH]; [discriminate|].
  rewrite mapM_res_cons. destruct (f x) as [y|e'] eqn:E.
  - destruct (mapM f l) as [k|e'']; [discriminate|].
    intros [= ->]. destruct (IH eq_refl) as (x' & Hin & Hx'). exists x'. split; [right|]; auto.
  - intros [= ->]. exists x. split; [left; reflexivity|exact E].
Qed.

Lemma comprehension_raise {A : Type} (f : json -> res A) v e :
  (forall x e', f x = Raise e' -> key_or_type e') ->
  comprehension f v = Raise e -> key_or_type e.
Proof.
  intros Hf H. unfold comprehension in H.
  apply res_bind_raise in H as [H|(l & _ & H)].
  - destruct v; try discriminate; injection H as <-; right; reflexivity.
  - apply mapM_res_raise in H as (x & _ & Hx). eauto.
Qed.

Lemma if_not_None_raise {A : Type} (f : json -> res A) v e :
  (forall e', f v = Raise e' -> key_or_type e') ->
  if_not_None f v = Raise e -> key_or_type e.
Proof.
  intros Hf H. unfold if_not_None in H.
  destruct v; try discriminate;
    (apply res_bind_raise in H as [H|(a & _ & H)]; [eauto|discriminate]).
Qed.

Lemma ImageInfo_raise data0 e : _ImageInfo data0 = Raise e -> key_or_type e.
Proof.
  unfold _ImageInfo. intros H.
  repeat (apply res_bind_raise in H as [H|(? & _ & H)]; [eauto using subscript_raise|]).
  discriminate.
Qed.

Lemma ChapterInfo_raise data0 e : _ChapterInfo data0 = Raise e -> key_or_type e.
Proof.
  unfold _ChapterInfo. intros H.
  repeat (apply res_bind_raise in H as [H|(? & _ & H)]; [eauto using subscript_raise|]).
  discriminate.
Qed.

Lemma FileInfo_raise data0 e : _FileInfo data0 = Raise e -> key_or_type e.
Proof.
  unfold _FileInfo. intros H.
  repeat (apply res_bind_raise in H as [H|(? & _ & H)];
          [eauto using subscript_raise, if_not_None_raise, comprehension_raise,
             ImageInfo_raise, ChapterInfo_raise|]).
  discriminate.
Qed.

(** An entry that raises [TypeError] ends the loop with that exception,
    whatever follows it; the warnings for the duplicates met before it
    have been logged. *)
Lemma check_loop_TypeError pre : forall recs bad post index new_files t,
  mapM _FileInfo pre = Ok recs ->
  _FileInfo bad = Raise TypeError ->
  check_loop (pre ++ bad :: post) index new_files t
  = (Raise TypeError, with_trace t (data t) (duplicate_warnings recs index new_files)).
Proof.
  induction pre as [|file pre IH]; intros recs bad post index new_files t H Hbad.
  - cbn in H. injection H as <-. cbn [app check_loop]. rewrite Hbad.
    unfold with_trace. destruct t. cbn. rewrite app_nil_r. reflexivity.
  - rewrite mapM_res_cons in H. cbn [app check_loop].
    destruct (_FileInfo file) as [fi|]; [|discriminate].
    destruct (mapM _FileInfo pre) as [recs'|] eqn:E; [|discriminate].
    injection H as <-. cbn [duplicate_warnings].
    destruct (py_in FileInfo_eq fi new_files).
    + run.
      rewrite (IH recs' bad post (S index) new_files
                 {| no_track := no_track t; data := data t;
                    trace := trace t ++ [log_warning index] |} eq_refl Hbad).
      unfold with_trace. cbn. rewrite <- !app_assoc. reflexivity.
    + apply (IH recs' bad post (S index) _ t eq_refl Hbad).
Qed.

(** X4. What a document can make the load raise.  Building a file
    record from an entry raises nothing but [KeyError] (a key is
    missing) or [TypeError] (a value is not of the kind the code reads
    it as).  A document that is not a dict makes the constructor of the
    tracker raise [TypeError], the worker already started; and so does a
    document in which the first entry that does not construct raises
    [TypeError], whatever the entries after it are: the warnings for the
    duplicates met before it are logged, the data stays [{}], nothing is
    written, queued or deleted. *)
Theorem load_raises_TypeError :
  (forall entry e, _FileInfo entry = Raise e -> key_or_type e)
  /\ (forall doc, (forall d, doc <> JObj d) ->
        __init__ false (Document doc)
        = (Raise TypeError,
           {| no_track := false; data := PyDict [] None; trace := [queue_start] |}))
  /\ (forall doc fv pre bad post recs,
        subscript doc "files" = Ok fv ->
        py_iter fv = Ok (pre ++ bad :: post) ->
        mapM (M := res) _FileInfo pre = Ok recs ->
        _FileInfo bad = Raise TypeError ->
        __init__ false (Document doc)
        = (Raise TypeError,
           {| no_track := false; data := PyDict [] None;
              trace := [queue_start] ++ duplicate_warnings recs 0 [] |})).
Proof.
  split; [exact FileInfo_raise|split].
  - intros doc Hdoc. destruct doc as [| | | | |d]; try reflexivity.
    destruct (Hdoc d eq_refl).
  - intros doc fv pre bad post recs H1 H2 H3 H4.
    unfold __init__, _load, _check_data. run. rewrite H1. run. rewrite H2.
    rewrite (check_loop_TypeError pre recs bad post 0 []
               {| no_track := false; data := PyDict [] None; trace := [queue_start] |} H3 H4).
    reflexivity.
Qed.

Lemma load_raises_TypeError_witness :
  __init__ false
    (Document (JObj [("files", JArr [sample_entry "A" "a"; sample_entry "A" "a";
                                     JInt 5; sample_entry_no_id "X"])]))
  = (Raise TypeError,
     {| no_track := false; data := PyDict [] None;
        trace := [queue_start; log_warning 1] |}).
Proof.
  exact (proj2 (proj2 load_raises_TypeError)
    (JObj [("files", JArr [sample_entry "A" "a"; sample_entry "A" "a";
                           JInt 5; sample_entry_no_id "X"])])
    (JArr [sample_entry "A" "a"; sample_entry "A" "a"; JInt 5; sample_entry_no_id "X"])
    [sample_entry "A" "a"; sample_entry "A" "a"] (JInt 5) [sample_entry_no_id "X"]
    [sample_file "A" "a"; sample_file "A" "a"] eq_refl eq_refl eq_refl eq_refl).
Defined.

(** X5. When the first entry that does not construct lacks a key, the
    load goes as far as the call of [delete_file], whatever the entries
    after it are: once the worker is started, the warnings for the
    duplicates met before that entry are logged, then the error with the
    index of that entry, and then [delete_file] is called on the
    directory [self.path]; nothing is written, queued or deleted before
    that call. *)
Theorem load_malformed_entry_deletes_path (doc fv : json) (pre : list json) (bad : json)
    (post : list json) (recs : list FileInfo) (k : string) :
  subscript doc "files" = Ok fv ->
  py_iter fv = Ok (pre ++ bad :: post) ->
  mapM (M := res) _FileInfo pre = Ok recs ->
  _FileInfo bad = Raise (KeyError k) ->
  exists rest,
    trace (snd (__init__ false (Document doc)))
    = [queue_start] ++ duplicate_warnings recs 0 []
      ++ [log_error (length pre); delete_file self_path] ++ rest.
Proof.
  intros H1 H2 H3 H4.
  rewrite (load_malformed_entry doc fv pre bad post recs k H1 H2 H3 H4).
  exists [write_text default_data; queue_submit]. reflexivity.
Qed.

Lemma load_malformed_entry_deletes_path_witness :
  exists rest,
    trace (snd (__init__ false
      (Document (JObj [("files", JArr [sample_entry "A" "a"; sample_entry "A" "a";
                                       sample_entry_no_id "X"; JInt 5])]))))
    = [queue_start; log_warning 1; log_error 2; delete_file self_path] ++ rest.
Proof.
  exact (load_malformed_entry_deletes_path
    (JObj [("files", JArr [sample_entry "A" "a"; sample_entry "A" "a";
                           sample_entry_no_id "X"; JInt 5])])
    (JArr [sample_entry "A" "a"; sample_entry "A" "a"; sample_entry_no_id "X"; JInt 5])
    [sample_entry "A" "a"; sample_entry "A" "a"] (sample_entry_no_id "X") [JInt 5]
    [sample_file "A" "a"; sample_file "A" "a"] "id" eq_refl eq_refl eq_refl eq_refl).
Defined.

(** ** Adding a file *)

Lemma name_is_str name n x : fi_name x = JStr n -> name_is name x = String.eqb n name.
Proof. unfold name_is. intros ->. reflexivity. Qed.

Lemma add_file_info_run t items files name id hash null_images null_chapters :
  data t = PyDict items (Some files) ->
  add_file_info name id hash null_images null_chapters t
  = (Ok (new_file name id hash null_images null_chapters),
     {| no_track := no_track t;
        data := PyDict items (Some (files ++ [new_file name id hash null_images null_chapters]));
        trace := trace t ++ (if no_track t then [] else [queue_submit]) |}).
Proof.
  intros Hd. unfold add_file_info, _write.
  destruct null_images, null_chapters; run; rewrite Hd; unfold data_files; cbn;
    destruct (no_track t) eqn:E; cbn; rewrite ?app_nil_r, ?E; reflexivity.
Qed.

(** X6. [add_file_info] always appends: the record built from the
    arguments is returned, comes last in the files list and is what
    [get] of that name returns from then on, whether or not older
    records carry the name; [get] of any other name answers as before,
    [empty] is false, and one write is queued when tracking is on. *)
Theorem add_file_info_then_get (t : DownloadTracker) (files : list FileInfo)
    (name : string) (id hash : option string) (null_images null_chapters : bool) :
  data_files (data t) = Ok files ->
  exists t',
    add_file_info name id hash null_images null_chapters t
    = (Ok (new_file name id hash null_images null_chapters), t')
    /\ data_files (data t') = Ok (files ++ [new_file name id hash null_images null_chapters])
    /\ get name t' = (Ok (Some (new_file name id hash null_images null_chapters)), t')
    /\ (forall n', n' <> name -> fst (get n' t') = fst (get n' t))
    /\ fst (empty t') = Ok false
    /\ trace t' = trace t ++ (if no_track t then [] else [queue_submit]).
Proof.
  intros Hf. destruct (data_files_inv _ _ Hf) as (items & Hd).
  eexists. split; [apply (add_file_info_run t items files); exact Hd|].
  set (fi := new_file name id hash null_images null_chapters).
  match goal with |- context [get name ?t'] => set (t1 := t') end.
  assert (Hf1 : data_files (data t1) = Ok (files ++ [fi])) by reflexivity.
  split; [exact Hf1|]. split; [|split; [|split]].
  - rewrite (get_eq t1 _ name Hf1). rewrite last_filter_split; [reflexivity| |constructor].
    unfold name_is. cbn. apply String.eqb_refl.
  - intros n' Hn. rewrite (get_eq t1 _ n' Hf1), (get_eq t _ n' Hf). cbn [fst].
    rewrite List.filter_app. cbn [List.filter].
    rewrite (name_is_str n' name fi eq_refl).
    destruct (String.eqb_spec name n') as [->|_]; [congruence|].
    rewrite app_nil_r. reflexivity.
  - unfold empty. run. rewrite Hf1. cbn. rewrite length_app. cbn.
    destruct (length files); reflexivity.
  - reflexivity.
Qed.

Lemma add_file_info_then_get_witness :
  exists t',
    add_file_info "X" (Some "b") None true true (sample_tracker false [sample_file "X" "a"])
    = (Ok (new_file "X" (Some "b") None true true), t')
    /\ get "X" t' = (Ok (Some (new_file "X" (Some "b") None true true)), t').
Proof.
  destruct (add_file_info_then_get (sample_tracker false [sample_file "X" "a"])
              [sample_file "X" "a"] "X" (Some "b") None true true eq_refl)
    as (t' & H1 & _ & H2 & _).
  exists t'. split; assumption.
Defined.

(** ** Calls the tracker cannot serve *)

Lemma get_loop_no_match name files : forall i acc,
  Forall (fun x => name_is name x = false) files -> get_loop name files i acc = acc.
Proof.
  induction files as [|fi files IH]; intros i acc H; [reflexivity|].
  inversion H as [|? ? Hfi Hrest]; subst. cbn. rewrite Hfi. apply IH. exact Hrest.
Qed.

Lemma get_object_absent name t files :
  data_files (data t) = Ok files ->
  Forall (fun x => name_is name x = false) files ->
  get_object name t = (Raise AttributeError, t).
Proof.
  intros Hf Hall. unfold get_object. run. rewrite Hf.
  rewrite (get_loop_no_match name files 0 None Hall). reflexivity.
Qed.

(** X7. The three mutators take a name that [get] knows: on a name no
    record carries, [add_image_info], [add_chapter_info] and
    [toggle_complete] raise [AttributeError] (an attribute of [None])
    and leave the tracker as it was, no write queued. *)
Theorem mutators_absent_name (t : DownloadTracker) (files : list FileInfo) (name : string) :
  data_files (data t) = Ok files ->
  Forall (fun x => name_is name x = false) files ->
  (forall img_name hash chap_id,
      add_image_info name img_name hash chap_id t = (Raise AttributeError, t))
  /\ (forall chapter_name chapter_id,
        add_chapter_info name chapter_name chapter_id t = (Raise AttributeError, t))
  /\ (forall is_complete, toggle_complete name is_complete t = (Raise AttributeError, t)).
Proof.
  intros Hf Hall. pose proof (get_object_absent name t files Hf Hall) as Hobj.
  repeat split; intros; unfold add_image_info, add_chapter_info, toggle_complete;
    unfold mbind at 1, M_bind; rewrite Hobj; reflexivity.
Qed.

Lemma mutators_absent_name_witness :
  toggle_complete "Y" true (sample_tracker false [sample_file "X" "a"])
  = (Raise AttributeError, sample_tracker false [sample_file "X" "a"]).
Proof.
  refine (proj2 (proj2 (mutators_absent_name (sample_tracker false [sample_file "X" "a"])
                          [sample_file "X" "a"] "Y" eq_refl _)) true).
  repeat constructor.
Defined.

(** X8. Every query and mutation begins by reading
    [self.data["files"]]: on a tracker whose data has no such list (the
    [{}] or the [False] a load can leave), each of them raises what that
    read raises, [KeyError] or [TypeError], and has no effect. *)
Theorem operations_without_files (t : DownloadTracker) (e : exn) :
  data_files (data t) = Raise e ->
  empty t = (Raise e, t)
  /\ (forall name, get name t = (Raise e, t))
  /\ (forall name, remove_file_info_from_name name t = (Raise e, t))
  /\ (forall name id hash null_images null_chapters,
        add_file_info name id hash null_images null_chapters t = (Raise e, t))
  /\ (forall name img_name hash chap_id,
        add_image_info name img_name hash chap_id t = (Raise e, t))
  /\ (forall name chapter_name chapter_id,
        add_chapter_info name chapter_name chapter_id t = (Raise e, t))
  /\ (forall name is_complete, toggle_complete name is_complete t = (Raise e, t)).
Proof.
  intros H.
  assert (Hs : self_files t = (Raise e, t)) by (unfold self_files; run; rewrite H; reflexivity).
  assert (Hobj : forall name, get_object name t = (Raise e, t)).
  { intros name. unfold get_object. unfold mbind at 1, M_bind. rewrite Hs. reflexivity. }
  repeat split; intros;
    unfold empty, get, remove_file_info_from_name, add_file_info, add_image_info,
      add_chapter_info, toggle_complete;
    unfold mbind at 1, M_bind; rewrite ?Hs, ?Hobj; reflexivity.
Qed.

Lemma operations_without_files_witness :
  get "X" (snd (__init__ false Garbage)) = (Raise (KeyError "files"), snd (__init__ false Garbage))
  /\ empty (snd (__init__ false (Document (JObj []))))
     = (Raise TypeError, snd (__init__ false (Document (JObj [])))).
Proof.
  split.
  - exact (proj1 (proj2 (operations_without_files (snd (__init__ false Garbage))
                           (KeyError "files") eq_refl)) "X").
  - exact (proj1 (operations_without_files (snd (__init__ false (Document (JObj []))))
                    TypeError eq_refl)).
Defined.

(** X9. A file built with [null_images] has no list to take an image,
    and one built with [null_chapters] none to take a chapter:
    [add_image_info] on a file whose [images] is [None] raises
    [AttributeError], [add_chapter_info] on a file whose [chapters] is
    [None] raises [TypeError], and neither changes the tracker. *)
Theorem mutators_null_list (t : DownloadTracker) (name : string) (fi : FileInfo) :
  get name t = (Ok (Some fi), t) ->
  (fi_images fi = None ->
     forall img_name hash chap_id,
       add_image_info name img_name hash chap_id t = (Raise AttributeError, t))
  /\ (fi_chapters fi = None ->
        forall chapter_name chapter_id,
          add_chapter_info name chapter_name chapter_id t = (Raise TypeError, t)).
Proof.
  intros Hget.
  destruct (get_inv _ _ _ _ Hget) as (files & i & Hf & Hloop & Hi).
  pose proof (get_object_eq name t files i fi Hf Hloop Hi) as Hobj.
  split; intros Hnull; intros; unfold add_image_info, add_chapter_info;
    unfold mbind at 1, M_bind; rewrite Hobj; cbn; rewrite Hnull; reflexivity.
Qed.

Lemma mutators_null_list_witness :
  add_image_info "X" "1.png" "h" "c" (sample_tracker false [sample_file "X" "a"])
  = (Raise AttributeError, sample_tracker false [sample_file "X" "a"])
  /\ add_chapter_info "X" "Ch. 1" "c1" (sample_tracker false [sample_file "X" "a"])
     = (Raise TypeError, sample_tracker false [sample_file "X" "a"]).
Proof.
  pose proof (mutators_null_list (sample_tracker false [sample_file "X" "a"]) "X"
                (sample_file "X" "a") eq_refl) as [H1 H2].
  split; [exact (H1 eq_refl "1.png" "h" "c")|exact (H2 eq_refl "Ch. 1" "c1")].
Defined.

(** ** An image without a page number *)

Lemma py_remove_None {A B : Type} (eq : A -> B -> bool) x l :
  Forall (fun e => eq e x = false) l -> py_remove eq x l = None.
Proof.
  induction 1 as [|e l He _ IH]; [reflexivity|]. cbn. rewrite He, IH. reflexivity.
Qed.

Lemma get_page_image_new img_name hash chap_id :
  get_page_image (new_image img_name hash chap_id)
  = match re_search_page img_name with
    | Some page => Ok page
    | None => Raise (Exception img_name)
    end.
Proof. reflexivity. Qed.

Lemma sorted_raise {A : Type} (key : A -> res Z) l e :
  mapM key l = Raise e -> sorted l key = Raise e.
Proof. intros H. unfold sorted. rewrite H. reflexivity. Qed.

(** A call whose sort raises: the list under [images] keeps the record
    just appended, nothing is written. *)
Lemma add_image_info_raise_run t name img_name hash chap_id fi images e :
  get name t = (Ok (Some fi), t) ->
  fi_images fi = Some images ->
  sorted (default images (py_remove ImageInfo_eq (new_image img_name hash chap_id) images)
          ++ [new_image img_name hash chap_id]) get_page_image = Raise e ->
  exists t',
    add_image_info name img_name hash chap_id t = (Raise e, t')
    /\ get name t'
       = (Ok (Some (with_images fi
                      (default images
                         (py_remove ImageInfo_eq (new_image img_name hash chap_id) images)
                       ++ [new_image img_name hash chap_id]))), t')
    /\ trace t' = trace t.
Proof.
  intros Hget Him Hs.
  destruct (get_inv _ _ _ _ Hget) as (files & i & Hf & Hloop & Hi).
  destruct (data_files_inv _ _ Hf) as (items & Hd).
  pose proof (get_object_eq name t files i fi Hf Hloop Hi) as Hobj.
  set (im := new_image img_name hash chap_id) in *.
  set (fi' := with_images fi (default images (py_remove ImageInfo_eq im images) ++ [im])).
  set (t1 := {| no_track := no_track t; data := PyDict items (Some (<[i := fi']> files));
                trace := trace t |}).
  assert (Hf1 : data_files (data t1) = Ok (<[i := fi']> files)) by reflexivity.
  exists t1. split; [|split; [|reflexivity]].
  - unfold add_image_info. run. rewrite Hobj. cbn. rewrite Him.
    unfold set_file. run. rewrite Hf. cbn. rewrite Hd. cbn.
    fold (new_image img_name hash chap_id). fold im. rewrite Hs. reflexivity.
  - rewrite (get_eq t1 (<[i := fi']> files) name Hf1).
    rewrite (get_loop_lookup name _ i fi'); [reflexivity| |].
    + rewrite (get_loop_insert name files i fi fi'); auto.
    + apply list_lookup_insert_eq. eapply lookup_lt_Some; eauto.
Qed.

Lemma mapM_res_raise_first {A B : Type} (f : A -> res B) l1 x l2 e :
  Forall (fun y => exists k, f y = Ok k) l1 -> f x = Raise e ->
  mapM f (l1 ++ x :: l2) = Raise e.
Proof.
  intros H Hx. induction H as [|y l1 [k Hk] _ IH]; cbn [app].
  - rewrite mapM_res_cons, Hx. reflexivity.
  - rewrite mapM_res_cons, Hk, IH. reflexivity.
Qed.

Lemma no_page_not_in images keys img_name hash chap_id :
  mapM get_page_image images = Ok keys ->
  re_search_page img_name = None ->
  Forall (fun e => ImageInfo_eq e (new_image img_name hash chap_id) = false) images.
Proof.
  intros Hk Hn. apply mapM_res in Hk.
  induction Hk as [|x k images keys Hx _ IH]; constructor; [|exact IH].
  destruct (ImageInfo_eq x (new_image img_name hash chap_id)) eqn:E; [|reflexivity].
  apply ImageInfo_eq_new in E. subst x.
  rewrite get_page_image_new, Hn in Hx. discriminate.
Qed.

(** X10. An image name without a page number makes [add_image_info]
    raise [Exception] after the record has been appended: when the
    images already there all have a page number, the call raises, the
    record [get(name)] returns afterwards has under [images] the old
    images followed by the new record, its other attributes being as
    before, and no write is queued. *)
Theorem add_image_info_no_page (t : DownloadTracker) (name img_name hash chap_id : string)
    (fi : FileInfo) (images : list ImageInfo) (keys : list Z) :
  get name t = (Ok (Some fi), t) ->
  fi_images fi = Some images ->
  mapM (M := res) get_page_image images = Ok keys ->
  re_search_page img_name = None ->
  exists t' fi',
    add_image_info name img_name hash chap_id t = (Raise (Exception img_name), t')
    /\ get name t' = (Ok (Some fi'), t')
    /\ fi_images fi' = Some (images ++ [new_image img_name hash chap_id])
    /\ same_but_images fi fi'
    /\ trace t' = trace t.
Proof.
  intros Hget Him Hk Hn.
  pose proof (no_page_not_in images keys img_name hash chap_id Hk Hn) as Hnot.
  pose proof (py_remove_None ImageInfo_eq _ images Hnot) as Hrm.
  destruct (add_image_info_raise_run t name img_name hash chap_id fi images
              (Exception img_name) Hget Him) as (t' & H1 & H2 & H3).
  - rewrite Hrm. cbn [from_option]. unfold id. apply sorted_raise.
    apply mapM_res_raise_first.
    + apply mapM_res_Forall. eauto.
    + rewrite get_page_image_new, Hn. reflexivity.
  - rewrite Hrm in H2. cbn [from_option] in H2. unfold id in H2.
    exists t', (with_images fi (images ++ [new_image img_name hash chap_id])).
    split; [exact H1|]. split; [exact H2|]. split; [reflexivity|].
    split; [repeat split|exact H3].
Qed.

Lemma add_image_info_no_page_witness :
  exists t' fi',
    add_image_info "Ch.1" "cover" "h" "abc" (sample_tracker false [sample_chapter_1])
    = (Raise (Exception "cover"), t')
    /\ get "Ch.1" t' = (Ok (Some fi'), t')
    /\ fi_images fi' = Some [new_image "1.png" "h1" "abc"; new_image "cover" "h" "abc"].
Proof.
  destruct (add_image_info_no_page (sample_tracker false [sample_chapter_1])
              "Ch.1" "cover" "h" "abc" sample_chapter_1
              [new_image "1.png" "h1" "abc"] [1%Z] eq_refl eq_refl eq_refl eq_refl)
    as (t' & fi' & H1 & H2 & H3 & _).
  exists t', fi'. split; [exact H1|]. split; [exact H2|exact H3].
Defined.

Lemma mapM_res_Exists_raise {A B : Type} (f : A -> res B) l x e0 :
  In x l -> f x = Raise e0 -> exists e, mapM f l = Raise e.
Proof.
  intros Hin Hx. destruct (mapM f l) as [ks|e] eqn:E; [|eauto].
  assert (Forall (fun y => exists k, f y = Ok k) l) as HF by (apply mapM_res_Forall; eauto).
  rewrite List.Forall_forall in HF. destruct (HF x Hin) as [k Hk]. congruence.
Qed.

Lemma remove_append_keeps (im b : ImageInfo) images img_name hash chap_id :
  im = new_image img_name hash chap_id ->
  In b images ->
  In b (default images (py_remove ImageInfo_eq im images) ++ [im]).
Proof.
  intros Him Hb. apply in_or_app.
  pose proof (py_remove_spec ImageInfo_eq im images) as R.
  destruct (py_remove ImageInfo_eq im images) as [l'|]; cbn [from_option]; unfold id; [|auto].
  destruct R as (l1 & e & l2 & -> & -> & He & _).
  rewrite Him in He. apply ImageInfo_eq_new in He. rewrite <- Him in He. subst e.
  apply in_app_or in Hb as [Hb|[Hb|Hb]].
  - left. apply in_or_app. auto.
  - right. left. exact Hb.
  - left. apply in_or_app. auto.
Qed.

(** X11. One image without a page number blocks the file: as long as
    the images of a file hold a record whose key cannot be computed,
    every [add_image_info] on that file raises, whatever image is
    added, and queues no write. *)
Theorem add_image_info_blocked (t : DownloadTracker) (name : string) (fi : FileInfo)
    (images : list ImageInfo) (b : ImageInfo) (e0 : exn) :
  get name t = (Ok (Some fi), t) ->
  fi_images fi = Some images ->
  In b images ->
  get_page_image b = Raise e0 ->
  forall img_name hash chap_id,
  exists e t',
    add_image_info name img_name hash chap_id t = (Raise e, t') /\ trace t' = trace t.
Proof.
  intros Hget Him Hb Hraise img_name hash chap_id.
  pose proof (remove_append_keeps (new_image img_name hash chap_id) b images
                img_name hash chap_id eq_refl Hb) as Hin.
  destruct (mapM_res_Exists_raise get_page_image _ b e0 Hin Hraise) as [e He].
  destruct (add_image_info_raise_run t name img_name hash chap_id fi images e Hget Him
              (sorted_raise _ _ _ He)) as (t' & H1 & _ & H3).
  eauto.
Qed.

Lemma add_image_info_blocked_witness :
  exists e t',
    add_image_info "Ch.1" "2.png" "h2" "abc"
      (sample_tracker false [with_images sample_chapter [new_image "cover" "h" "abc"]])
    = (Raise e, t').
Proof.
  destruct (add_image_info_blocked
              (sample_tracker false [with_images sample_chapter [new_image "cover" "h" "abc"]])
              "Ch.1" (with_images sample_chapter [new_image "cover" "h" "abc"])
              [new_image "cover" "h" "abc"] (new_image "cover" "h" "abc") (Exception "cover")
              eq_refl eq_refl (or_introl eq_refl) eq_refl "2.png" "h2" "abc")
    as (e & t' & H & _).
  exists e, t'. exact H.
Defined.

(** ** The page number of a file name *)

Arguments is_digit : simpl never.

Lemma append_cons c s1 s2 : String.append (String c s1) s2 = String c (String.append s1 s2).
Proof. reflexivity. Qed.

Lemma append_nil s : String.append EmptyString s = s.
Proof. reflexivity. Qed.

Lemma span_digits_app ds rest :
  string_forall is_digit ds = true ->
  span_digits (String.append ds (String "." rest)) = (ds, String "." rest).
Proof.
  induction ds as [|c ds IH]; intros H.
  - reflexivity.
  - cbn in H. apply andb_true_iff in H as [Hc Hds].
    rewrite append_cons. cbn [span_digits]. rewrite Hc, (IH Hds). reflexivity.
Qed.

Lemma span_digits_eq s : forall ds rest,
  span_digits s = (ds, rest) -> s = String.append ds rest.
Proof.
  induction s as [|c s IH]; cbn [span_digits]; intros ds rest H.
  - injection H as <- <-. reflexivity.
  - destruct (is_digit c).
    + destruct (span_digits s) as [ds' rest'] eqn:E. injection H as <- <-.
      rewrite append_cons. f_equal. apply IH. reflexivity.
    + injection H as <- <-. reflexivity.
Qed.

Lemma match_here_not_digit c s : is_digit c = false -> match_here (String c s) = None.
Proof. intros H. unfold match_here. cbn [span_digits]. rewrite H. reflexivity. Qed.

Lemma string_forall_app p s1 s2 :
  string_forall p (String.append s1 s2) = string_forall p s1 && string_forall p s2.
Proof.
  induction s1 as [|c s1 IH]; [reflexivity|].
  rewrite append_cons. cbn [string_forall]. rewrite IH, andb_assoc. reflexivity.
Qed.

(** X12. A file name made of characters that are not digits, then a
    run of digits, a dot and an extension that does not begin with a
    newline (["1.png"], ["page-007.jpg"]) has the number its digits
    write as its page. *)
Theorem re_search_page_digits_dot (prefix ds : string) (c : ascii) (ext : string) :
  string_forall (fun x => negb (is_digit x)) prefix = true ->
  string_forall is_digit ds = true ->
  ds <> EmptyString ->
  c <> "010"%char ->
  re_search_page (String.append prefix (String.append ds (String "." (String c ext))))
  = Some (int_of_digits 0 ds).
Proof.
  intros Hp Hds Hne Hc. induction prefix as [|x prefix IH].
  - rewrite append_nil.
    assert (match_here (String.append ds (String "." (String c ext)))
            = Some (int_of_digits 0 ds)) as Hm.
    { unfold match_here. rewrite (span_digits_app ds _ Hds).
      destruct ds as [|d ds]; [congruence|].
      destruct (Ascii.eqb_spec c "010"); [contradiction|reflexivity]. }
    destruct ds as [|d ds]; [congruence|]. rewrite append_cons in *.
    cbn [re_search_page]. rewrite Hm. reflexivity.
  - cbn [string_forall] in Hp. apply andb_true_iff in Hp as [Hx Hp]. apply negb_true_iff in Hx.
    rewrite append_cons. cbn [re_search_page].
    rewrite (match_here_not_digit x _ Hx). apply IH. exact Hp.
Qed.

Lemma re_search_page_digits_dot_witness :
  re_search_page "page-007.jpg" = Some 7%Z.
Proof.
  refine (re_search_page_digits_dot "page-" "007" "j" "pg" eq_refl eq_refl _ _); discriminate.
Defined.

Lemma match_here_no_digit s :
  string_forall (fun x => negb (is_digit x)) s = true -> match_here s = None.
Proof.
  destruct s as [|c s]; [reflexivity|]. cbn [string_forall]. intros H.
  apply andb_true_iff in H as [Hc _]. apply negb_true_iff in Hc.
  apply match_here_not_digit. exact Hc.
Qed.

Lemma match_here_no_dot s :
  string_forall (fun x => negb (Ascii.eqb x ".")) s = true -> match_here s = None.
Proof.
  intros H. unfold match_here. destruct (span_digits s) as [ds rest] eqn:E.
  apply span_digits_eq in E. subst s. rewrite string_forall_app in H.
  apply andb_true_iff in H as [_ H].
  destruct ds as [|d ds]; [reflexivity|].
  destruct rest as [|r rest]; [reflexivity|].
  cbn [string_forall] in H. apply andb_true_iff in H as [Hr _]. apply negb_true_iff in Hr.
  destruct r as [[] [] [] [] [] [] [] []]; try reflexivity. discriminate Hr.
Qed.

Lemma re_search_page_None (p : ascii -> bool) s :
  (forall s', string_forall p s' = true -> match_here s' = None) ->
  string_forall p s = true -> re_search_page s = None.
Proof.
  intros Hm. induction s as [|c s IH]; intros H.
  - reflexivity.
  - cbn [re_search_page]. rewrite (Hm _ H). cbn [string_forall] in H.
    apply andb_true_iff in H as [_ H]. apply IH. exact H.
Qed.

(** X13. A name in which no digit appears, or no dot, has no page
    number: [get_page_image] raises [Exception] on an image of that
    name. *)
Theorem get_page_image_no_page (img_name hash chap_id : string) :
  string_forall (fun x => negb (is_digit x)) img_name = true
  \/ string_forall (fun x => negb (Ascii.eqb x ".")) img_name = true ->
  get_page_image (new_image img_name hash chap_id) = Raise (Exception img_name).
Proof.
  intros H. rewrite get_page_image_new.
  assert (re_search_page img_name = None) as ->; [|reflexivity].
  destruct H as [H|H].
  - exact (re_search_page_None _ _ match_here_no_digit H).
  - exact (re_search_page_None _ _ match_here_no_dot H).
Qed.

Lemma get_page_image_no_page_witness :
  get_page_image (new_image "cover.png" "h" "c") = Raise (Exception "cover.png")
  /\ get_page_image (new_image "12" "h" "c") = Raise (Exception "12").
Proof.
  split.
  - exact (get_page_image_no_page "cover.png" "h" "c" (or_introl eq_refl)).
  - exact (get_page_image_no_page "12" "h" "c" (or_intror eq_refl)).
Defined.

(** ** Removing by name *)

Lemma FileInfo_eq_name a b : FileInfo_eq a b = true -> py_eq (fi_name a) (fi_name b) = true.
Proof. unfold FileInfo_eq. rewrite !andb_true_iff. tauto. Qed.

(** A record equal to one of the name carries the name. *)
Lemma FileInfo_eq_name_is name e fi :
  FileInfo_eq e fi = true -> name_is name fi = true -> name_is name e = true.
Proof.
  intros He Hfi. unfold name_is in *.
  eapply py_eq_trans; [apply FileInfo_eq_name; exact He|exact Hfi].
Qed.

Lemma remove_obj_filter name fi files : forall i,
  files !! i = Some fi -> name_is name fi = true ->
  List.filter (fun x => negb (name_is name x)) (remove_obj fi i files)
  = List.filter (fun x => negb (name_is name x)) files.
Proof.
  induction files as [|e files IH]; intros [|i] Hi Hfi; try discriminate; cbn in Hi.
  - injection Hi as ->. cbn. rewrite Hfi. reflexivity.
  - cbn [remove_obj]. destruct (FileInfo_eq e fi) eqn:E.
    + cbn. rewrite (FileInfo_eq_name_is name e fi E Hfi). reflexivity.
    + cbn. rewrite (IH i Hi Hfi). reflexivity.
Qed.

Lemma remove_loop_filter name : forall fuel i files files',
  remove_loop fuel name i files = Some files' ->
  List.filter (fun x => negb (name_is name x)) files'
  = List.filter (fun x => negb (name_is name x)) files.
Proof.
  induction fuel as [|fuel IH]; intros i files files' H; [discriminate|].
  cbn [remove_loop] in H. destruct (files !! i) as [fi|] eqn:E.
  - destruct (name_is name fi) eqn:Efi.
    + rewrite (IH _ _ _ H). apply remove_obj_filter; assumption.
    + eapply IH; eauto.
  - injection H as <-. reflexivity.
Qed.

Lemma filter_filter_implies {A : Type} (p q : A -> bool) l :
  (forall x, p x = true -> q x = true) ->
  List.filter p (List.filter q l) = List.filter p l.
Proof.
  intros H. induction l as [|x l IH]; [reflexivity|]. cbn.
  destruct (q x) eqn:Eq; cbn.
  - rewrite IH. reflexivity.
  - destruct (p x) eqn:Ep; [rewrite (H x Ep) in Eq; discriminate|exact IH].
Qed.

Lemma name_is_other name n' x :
  n' <> name -> name_is n' x = true -> negb (name_is name x) = true.
Proof.
  unfold name_is. intros Hn H. apply py_eq_str in H. rewrite H. cbn.
  apply negb_true_iff, String.eqb_neq. exact Hn.
Qed.

Lemma remove_run t items files name :
  data t = PyDict items (Some files) ->
  exists files',
    remove_loop (S (length files)) name 0 files = Some files'
    /\ remove_file_info_from_name name t
       = (Ok tt, {| no_track := no_track t; data := PyDict items (Some files');
                    trace := trace t |}).
Proof.
  intros Hd. destruct (remove_loop_total name (S (length files)) 0 files) as [files' H]; [lia|].
  exists files'. split; [exact H|].
  unfold remove_file_info_from_name. run. rewrite Hd. unfold data_files. cbn.
  rewrite H. cbn. rewrite Hd. reflexivity.
Qed.

(** X14. [remove_file_info_from_name] always returns, touches no
    record of another name and queues no write: the records whose name
    differs from [name] are after the call what they were before, in
    the same order, [get] of any other name answers as before, and the
    effects of the tracker are unchanged, tracking on or off. *)
Theorem remove_file_info_from_name_frame (t : DownloadTracker) (files : list FileInfo)
    (name : string) :
  data_files (data t) = Ok files ->
  exists t' files',
    remove_file_info_from_name name t = (Ok tt, t')
    /\ data_files (data t') = Ok files'
    /\ List.filter (fun x => negb (name_is name x)) files'
       = List.filter (fun x => negb (name_is name x)) files
    /\ (forall n', n' <> name -> fst (get n' t') = fst (get n' t))
    /\ trace t' = trace t.
Proof.
  intros Hf. destruct (data_files_inv _ _ Hf) as (items & Hd).
  destruct (remove_run t items files name Hd) as (files' & Hloop & Hrun).
  pose proof (remove_loop_filter name _ _ _ _ Hloop) as Hfilter.
  set (t1 := {| no_track := no_track t; data := PyDict items (Some files');
                trace := trace t |}) in *.
  assert (Hf1 : data_files (data t1) = Ok files') by reflexivity.
  exists t1, files'. split; [exact Hrun|].
  split; [exact Hf1|]. split; [exact Hfilter|]. split; [|reflexivity].
  intros n' Hn.
  rewrite (get_eq t1 files' n' Hf1), (get_eq t files n' Hf). cbn [fst].
  rewrite <- (filter_filter_implies (name_is n') (fun x => negb (name_is name x)) files')
    by (intros x; apply name_is_other; exact Hn).
  rewrite <- (filter_filter_implies (name_is n') (fun x => negb (name_is name x)) files)
    by (intros x; apply name_is_other; exact Hn).
  rewrite Hfilter. reflexivity.
Qed.

Lemma remove_file_info_from_name_frame_witness :
  exists t',
    remove_file_info_from_name "X" (sample_tracker false sample_files) = (Ok tt, t')
    /\ fst (get "Y" t') = Ok (Some (sample_file "Y" "c"))
    /\ trace t' = [].
Proof.
  destruct (remove_file_info_from_name_frame (sample_tracker false sample_files)
              sample_files "X" eq_refl) as (t' & files' & H1 & _ & _ & H2 & H3).
  exists t'. split; [exact H1|]. split; [|exact H3].
  rewrite (H2 "Y"); [reflexivity|discriminate].
Defined.

Lemma remove_loop_skip name : forall fuel i files,
  (forall j x, i <= j -> files !! j = Some x -> name_is name x = false) ->
  length files - i < fuel ->
  remove_loop fuel name i files = Some files.
Proof.
  induction fuel as [|fuel IH]; intros i files Hno Hlen; [lia|].
  cbn [remove_loop]. destruct (files !! i) as [fi|] eqn:E; [|reflexivity].
  rewrite (Hno i fi (le_n i) E). apply lookup_lt_Some in E.
  apply IH; [|lia]. intros j x Hj. apply Hno. lia.
Qed.

Lemma remove_obj_at name x l1 l2 :
  name_is name x = true ->
  Forall (fun e => name_is name e = false) l1 ->
  remove_obj x (length l1) (l1 ++ x :: l2) = l1 ++ l2.
Proof.
  intros Hx. induction 1 as [|e l1 He _ IH]; [reflexivity|].
  cbn. destruct (FileInfo_eq e x) eqn:E.
  - rewrite (FileInfo_eq_name_is name e x E Hx) in He. discriminate.
  - rewrite IH. reflexivity.
Qed.

Lemma remove_loop_unique name x l1 l2 :
  name_is name x = true ->
  Forall (fun e => name_is name e = false) l1 ->
  Forall (fun e => name_is name e = false) l2 ->
  forall fuel i, i <= length l1 -> length (l1 ++ x :: l2) - i < fuel ->
  remove_loop fuel name i (l1 ++ x :: l2) = Some (l1 ++ l2).
Proof.
  intros Hx H1 H2. induction fuel as [|fuel IH]; intros i Hi Hlen; [lia|].
  cbn [remove_loop]. rewrite length_app in Hlen. cbn [length] in Hlen.
  destruct (decide (i < length l1)) as [Hlt|Hge].
  - rewrite lookup_app_l by lia.
    destruct (lookup_lt_is_Some_2 l1 i Hlt) as [e He]. rewrite He.
    rewrite List.Forall_forall in H1.
    rewrite (H1 e) by (apply list_elem_of_In; eapply list_elem_of_lookup_2; exact He).
    apply IH; [lia|]. rewrite length_app. cbn [length]. lia.
  - assert (i = length l1) as -> by lia.
    rewrite lookup_app_r by lia. rewrite Nat.sub_diag. cbn [lookup list_lookup].
    rewrite Hx, (remove_obj_at name x l1 l2 Hx H1).
    apply remove_loop_skip; [|rewrite length_app; lia].
    intros j y Hj Hy. rewrite lookup_app_r in Hy by lia.
    rewrite List.Forall_forall in H2. apply H2.
    apply list_elem_of_In. eapply list_elem_of_lookup_2. exact Hy.
Qed.

(** X15. Where names are unique the removal is complete: when no
    record carries the name the tracker is left exactly as it was, and
    when exactly one does, that record is taken out, the others stay in
    order, and [get] of the name returns [None] afterwards. *)
Theorem remove_file_info_from_name_unique (t : DownloadTracker) (files : list FileInfo)
    (name : string) :
  data_files (data t) = Ok files ->
  (Forall (fun e => name_is name e = false) files ->
     remove_file_info_from_name name t = (Ok tt, t))
  /\ (forall l1 x l2,
        files = l1 ++ x :: l2 -> name_is name x = true ->
        Forall (fun e => name_is name e = false) l1 ->
        Forall (fun e => name_is name e = false) l2 ->
        exists t',
          remove_file_info_from_name name t = (Ok tt, t')
          /\ data_files (data t') = Ok (l1 ++ l2)
          /\ get name t' = (Ok None, t')).
Proof.
  intros Hf. destruct (data_files_inv _ _ Hf) as (items & Hd).
  destruct (remove_run t items files name Hd) as (files' & Hloop & Hrun).
  split.
  - intros Hno. rewrite remove_loop_skip in Hloop; [|
      intros j x _ Hx; rewrite List.Forall_forall in Hno; apply Hno;
      apply list_elem_of_In; eapply list_elem_of_lookup_2; exact Hx | lia].
    injection Hloop as <-. rewrite Hrun. destruct t as [nt d tr]. cbn in *. subst d.
    reflexivity.
  - intros l1 x l2 -> Hx H1 H2.
    rewrite (remove_loop_unique name x l1 l2 Hx H1 H2) in Hloop by lia.
    injection Hloop as <-.
    set (t1 := {| no_track := no_track t; data := PyDict items (Some (l1 ++ l2));
                  trace := trace t |}) in *.
    assert (Hf1 : data_files (data t1) = Ok (l1 ++ l2)) by reflexivity.
    exists t1. split; [exact Hrun|]. split; [exact Hf1|].
    rewrite (get_eq t1 _ name Hf1), last_filter_none; [reflexivity|].
    apply Forall_app. split; assumption.
Qed.

Lemma remove_file_info_from_name_unique_witness :
  exists t',
    remove_file_info_from_name "Y" (sample_tracker false sample_files) = (Ok tt, t')
    /\ data_files (data t') = Ok [sample_file "X" "a"; sample_file "X" "b"]
    /\ get "Y" t' = (Ok None, t').
Proof.
  refine (proj2 (remove_file_info_from_name_unique (sample_tracker false sample_files)
                   sample_files "Y" eq_refl)
            [sample_file "X" "a"] (sample_file "Y" "c") [sample_file "X" "b"]
            eq_refl eq_refl _ _); repeat constructor.
Defined.

(** ** [recreate] with tracking on *)

(** X16. With tracking on, [recreate] starts the ledger over from any
    state, the [{}] and the [False] a load can leave included: the
    backing file is deleted, the skeleton written, and the tracker holds
    the data of one built where no document exists, so that [empty] is
    true and [get] returns [None] for every name. *)
Theorem recreate_enabled_resets (t : DownloadTracker) :
  no_track t = false ->
  recreate t
  = (Ok tt, {| no_track := false; data := default_data;
               trace := trace t ++ [delete_file self_file; write_text default_data] |})
  /\ data (snd (recreate t)) = data (snd (__init__ false Missing))
  /\ fst (empty (snd (recreate t))) = Ok true
  /\ (forall name, fst (get name (snd (recreate t))) = Ok None).
Proof.
  intros H.
  assert (recreate t
          = (Ok tt, {| no_track := false; data := default_data;
                       trace := trace t ++ [delete_file self_file; write_text default_data] |}))
    as E.
  { unfold recreate, _write_new. run. repeat (rewrite H; cbn).
    rewrite <- app_assoc. reflexivity. }
  rewrite E. repeat split.
Qed.

Lemma recreate_enabled_resets_witness :
  data (snd (recreate (snd (__init__ false (Document (JObj [])))))) = default_data
  /\ fst (empty (snd (recreate (snd (__init__ false (Document (JObj []))))))) = Ok true.
Proof.
  pose proof (recreate_enabled_resets (snd (__init__ false (Document (JObj [])))) eq_refl)
    as (E & _ & H & _).
  split; [rewrite E; reflexivity|exact H].
Defined.

(** ** Chapters and the completed flag *)

Lemma get_after_set_file name t1 files i fi fi' :
  data_files (data t1) = Ok (<[i := fi']> files) ->
  get_loop name files 0 None = Some i -> files !! i = Some fi ->
  fi_name fi' = fi_name fi ->
  get name t1 = (Ok (Some fi'), t1).
Proof.
  intros Hf1 Hloop Hi Hn. rewrite (get_eq t1 _ name Hf1).
  rewrite (get_loop_lookup name _ i fi'); [reflexivity| |].
  - rewrite (get_loop_insert name files i fi fi'); auto.
  - apply list_lookup_insert_eq. eapply lookup_lt_Some; eauto.
Qed.

Lemma add_chapter_info_append_run t name chapter_name chapter_id fi chapters :
  get name t = (Ok (Some fi), t) ->
  fi_chapters fi = Some chapters ->
  py_in ChapterInfo_eq_str chapter_id chapters = false ->
  exists t',
    add_chapter_info name chapter_name chapter_id t = (Ok tt, t')
    /\ get name t'
       = (Ok (Some (with_chapters fi
                      (chapters ++ [{| ch_name := JStr chapter_name;
                                       ch_id := JStr chapter_id |}]))), t')
    /\ trace t' = trace t ++ (if no_track t then [] else [queue_submit]).
Proof.
  intros Hget Hch Hin.
  destruct (get_inv _ _ _ _ Hget) as (files & i & Hf & Hloop & Hi).
  destruct (data_files_inv _ _ Hf) as (items & Hd).
  pose proof (get_object_eq name t files i fi Hf Hloop Hi) as Hobj.
  set (fi' := with_chapters fi (chapters ++ [{| ch_name := JStr chapter_name;
                                                ch_id := JStr chapter_id |}])).
  set (t1 := {| no_track := no_track t; data := PyDict items (Some (<[i := fi']> files));
                trace := trace t ++ (if no_track t then [] else [queue_submit]) |}).
  assert (Hf1 : data_files (data t1) = Ok (<[i := fi']> files)) by reflexivity.
  exists t1. split; [|split; [|reflexivity]].
  - unfold add_chapter_info. run. rewrite Hobj. cbn. rewrite Hch, Hin.
    unfold set_file, _write. run. rewrite Hf. cbn. rewrite Hd. cbn. unfold t1.
    destruct (no_track t) eqn:E; cbn; rewrite ?app_nil_r, ?E; reflexivity.
  - exact (get_after_set_file name t1 files i fi fi' Hf1 Hloop Hi eq_refl).
Qed.

Lemma unique_ids_snoc chapters chapter_name chapter_id :
  unique_ids chapters ->
  py_in ChapterInfo_eq_str chapter_id chapters = false ->
  unique_ids (chapters ++ [{| ch_name := JStr chapter_name; ch_id := JStr chapter_id |}]).
Proof.
  intros Hu Hin i j a b Hij Ha Hb.
  pose proof (lookup_lt_Some _ _ _ Hb) as Hj. rewrite length_app in Hj. cbn in Hj.
  destruct (decide (j < length chapters)) as [Hlt|Hge].
  - rewrite lookup_app_l in Ha, Hb by lia. eauto.
  - assert (j = length chapters) as -> by lia.
    rewrite lookup_app_l in Ha by lia.
    rewrite lookup_app_r, Nat.sub_diag in Hb by lia. injection Hb as <-. cbn.
    apply (proj1 (py_in_false ChapterInfo_eq_str chapter_id chapters) Hin).
    apply list_elem_of_In. eapply list_elem_of_lookup_2. exact Ha.
Qed.

(** X17. [add_chapter_info] keeps the chapter ids of a file unique:
    called on a file whose chapters hold no id twice, it succeeds, and
    the record [get(name)] returns afterwards has under [chapters] the
    old chapters, followed by a record of the id given when no old one
    had that id: a list that still holds no id twice and holds the id
    given; the other attributes of the record are as before. *)
Theorem add_chapter_info_unique_ids (t : DownloadTracker) (name chapter_name chapter_id : string)
    (fi : FileInfo) (chapters : list ChapterInfo) :
  get name t = (Ok (Some fi), t) ->
  fi_chapters fi = Some chapters ->
  unique_ids chapters ->
  exists t' fi' chapters',
    add_chapter_info name chapter_name chapter_id t = (Ok tt, t')
    /\ get name t' = (Ok (Some fi'), t')
    /\ fi_chapters fi' = Some chapters'
    /\ same_but_chapters fi fi'
    /\ chapters'
       = chapters
         ++ (if py_in ChapterInfo_eq_str chapter_id chapters then []
             else [{| ch_name := JStr chapter_name; ch_id := JStr chapter_id |}])
    /\ unique_ids chapters'
    /\ exists ch, In ch chapters' /\ py_eq (ch_id ch) (JStr chapter_id) = true.
Proof.
  intros Hget Hch Hu.
  destruct (py_in ChapterInfo_eq_str chapter_id chapters) eqn:Hin.
  - exists t, fi, chapters. rewrite app_nil_r.
    split; [|split; [exact Hget|split; [exact Hch|split; [repeat split|split;
      [reflexivity|split; [exact Hu|]]]]]].
    + destruct (get_inv _ _ _ _ Hget) as (files & i & Hf & Hloop & Hi).
      unfold add_chapter_info. unfold mbind at 1, M_bind.
      rewrite (get_object_eq name t files i fi Hf Hloop Hi). cbn match.
      rewrite Hch, Hin. reflexivity.
    + apply py_in_true in Hin. exact Hin.
  - destruct (add_chapter_info_append_run t name chapter_name chapter_id fi chapters
                Hget Hch Hin) as (t' & H1 & H2 & _).
    exists t'. eexists. eexists.
    split; [exact H1|]. split; [exact H2|]. split; [reflexivity|].
    split; [repeat split|]. split; [reflexivity|].
    split; [apply unique_ids_snoc; assumption|].
    eexists. split; [apply in_or_app; right; left; reflexivity|].
    cbn. apply String.eqb_refl.
Qed.

Lemma add_chapter_info_unique_ids_witness :
  exists t' fi',
    add_chapter_info "Vol. 1" "Ch. 2" "c2" (sample_tracker false [sample_volume_1]) = (Ok tt, t')
    /\ get "Vol. 1" t' = (Ok (Some fi'), t')
    /\ fi_chapters fi' = Some [{| ch_name := JStr "Ch. 1"; ch_id := JStr "c1" |};
                               {| ch_name := JStr "Ch. 2"; ch_id := JStr "c2" |}].
Proof.
  destruct (add_chapter_info_unique_ids (sample_tracker false [sample_volume_1])
              "Vol. 1" "Ch. 2" "c2" sample_volume_1
              [{| ch_name := JStr "Ch. 1"; ch_id := JStr "c1" |}] eq_refl eq_refl)
    as (t' & fi' & chapters' & H1 & H2 & H3 & _ & H4 & _).
  - intros [|i] [|j] a b Hij Ha Hb; try lia; discriminate.
  - exists t', fi'. split; [exact H1|]. split; [exact H2|].
    rewrite H3, H4. reflexivity.
Defined.

Lemma toggle_complete_run t name is_complete fi :
  get name t = (Ok (Some fi), t) ->
  exists t',
    toggle_complete name is_complete t = (Ok tt, t')
    /\ get name t' = (Ok (Some (with_completed fi (JBool is_complete))), t')
    /\ trace t' = trace t ++ (if no_track t then [] else [queue_submit])
    /\ no_track t' = no_track t.
Proof.
  intros Hget.
  destruct (get_inv _ _ _ _ Hget) as (files & i & Hf & Hloop & Hi).
  destruct (data_files_inv _ _ Hf) as (items & Hd).
  pose proof (get_object_eq name t files i fi Hf Hloop Hi) as Hobj.
  set (fi' := with_completed fi (JBool is_complete)).
  set (t1 := {| no_track := no_track t; data := PyDict items (Some (<[i := fi']> files));
                trace := trace t ++ (if no_track t then [] else [queue_submit]) |}).
  assert (Hf1 : data_files (data t1) = Ok (<[i := fi']> files)) by reflexivity.
  exists t1. split; [|split; [|split; reflexivity]].
  - unfold toggle_complete. run. rewrite Hobj. cbn.
    unfold set_file, _write. run. rewrite Hf. cbn. rewrite Hd. cbn. unfold t1.
    destruct (no_track t) eqn:E; cbn; rewrite ?app_nil_r, ?E; reflexivity.
  - exact (get_after_set_file name t1 files i fi fi' Hf1 Hloop Hi eq_refl).
Qed.

(** X18. [toggle_complete] sets the flag of the record [get] returns
    and nothing else of it: afterwards the record [get] of the name
    returns has [completed] at the value given and its other attributes
    as before, a write is queued when tracking is on, and of two calls
    in a row the second one decides. *)
Theorem toggle_complete_then_get (t : DownloadTracker) (name : string) (fi : FileInfo)
    (is_complete again : bool) :
  get name t = (Ok (Some fi), t) ->
  exists t' fi' t'' fi'',
    toggle_complete name is_complete t = (Ok tt, t')
    /\ get name t' = (Ok (Some fi'), t')
    /\ fi_completed fi' = JBool is_complete
    /\ same_but_completed fi fi'
    /\ trace t' = trace t ++ (if no_track t then [] else [queue_submit])
    /\ toggle_complete name again t' = (Ok tt, t'')
    /\ get name t'' = (Ok (Some fi''), t'')
    /\ fi_completed fi'' = JBool again
    /\ same_but_completed fi fi''.
Proof.
  intros Hget.
  destruct (toggle_complete_run t name is_complete fi Hget) as (t' & H1 & H2 & H3 & _).
  destruct (toggle_complete_run t' name again _ H2) as (t'' & H4 & H5 & _).
  exists t', (with_completed fi (JBool is_complete)), t'', (with_completed fi (JBool again)).
  split; [exact H1|]. split; [exact H2|]. split; [reflexivity|].
  split; [repeat split|]. split; [exact H3|]. split; [exact H4|].
  split; [exact H5|]. split; [reflexivity|repeat split].
Qed.

Lemma toggle_complete_then_get_witness :
  exists t' fi' t'' fi'',
    toggle_complete "X" true (sample_tracker false [sample_file "X" "a"]) = (Ok tt, t')
    /\ get "X" t' = (Ok (Some fi'), t')
    /\ fi_completed fi' = JBool true
    /\ toggle_complete "X" false t' = (Ok tt, t'')
    /\ get "X" t'' = (Ok (Some fi''), t'')
    /\ fi_completed fi'' = JBool false.
Proof.
  destruct (toggle_complete_then_get (sample_tracker false [sample_file "X" "a"]) "X"
              (sample_file "X" "a") true false eq_refl)
    as (t' & fi' & t'' & fi'' & H1 & H2 & H3 & _ & _ & H4 & H5 & H6 & _).
  exists t', fi', t'', fi''. auto 10.
Defined.

(** ** What the mutators leave alone *)

Lemma touches_only_toggle_complete name is_complete t :
  touches_only name t (snd (toggle_complete name is_complete t)).
Proof.
  destruct t as [nt [|items [files|]] tr]; try (left; reflexivity).
  unfold toggle_complete, get_object, set_file, _write. run. unfold data_files. cbn.
  destruct (get_loop name files 0 None) as [i|] eqn:Hloop; [|left; reflexivity].
  destruct (files !! i) as [fi|] eqn:Hi; [|left; reflexivity].
  right. exists items, files, i, fi, (with_completed fi (JBool is_complete)).
  cbn. unfold data_files. cbn. destruct nt; cbn; auto 10.
Qed.

Lemma touches_only_add_chapter_info name chapter_name chapter_id t :
  touches_only name t (snd (add_chapter_info name chapter_name chapter_id t)).
Proof.
  destruct t as [nt [|items [files|]] tr]; try (left; reflexivity).
  unfold add_chapter_info, get_object, set_file, _write. run. unfold data_files. cbn.
  destruct (get_loop name files 0 None) as [i|] eqn:Hloop; [|left; reflexivity].
  destruct (files !! i) as [fi|] eqn:Hi; [|left; reflexivity].
  cbn. destruct (fi_chapters fi) as [chapters|]; [|left; reflexivity].
  destruct (py_in ChapterInfo_eq_str chapter_id chapters); [left; reflexivity|].
  right. exists items, files, i, fi.
  eexists (with_chapters fi _).
  cbn. unfold data_files. cbn. destruct nt; cbn; auto 10.
Qed.

Lemma touches_only_add_image_info name img_name hash chap_id t :
  touches_only name t (snd (add_image_info name img_name hash chap_id t)).
Proof.
  destruct t as [nt [|items [files|]] tr]; try (left; reflexivity).
  unfold add_image_info, get_object, set_file, _write. run. unfold data_files. cbn.
  destruct (get_loop name files 0 None) as [i|] eqn:Hloop; [|left; reflexivity].
  destruct (files !! i) as [fi|] eqn:Hi; [|left; reflexivity].
  cbn. destruct (fi_images fi) as [images|]; [|left; reflexivity].
  cbn. unfold data_files. cbn.
  match goal with |- context [sorted ?l ?k] => destruct (sorted l k) as [images3|e] end.
  - right. exists items, files, i, fi, (with_images fi images3).
    cbn. unfold data_files. cbn. rewrite list_insert_insert_eq.
    destruct nt; cbn; auto 10.
  - right. exists items, files, i, fi. eexists (with_images fi _). cbn. auto 10.
Qed.

(** The position the loop of [get] ends with holds a record of the
    name. *)
Lemma get_loop_Some name files : forall k acc j,
  get_loop name files k acc = Some j ->
  acc = Some j \/ exists x, k <= j /\ files !! (j - k) = Some x /\ name_is name x = true.
Proof.
  induction files as [|fi files IH]; intros k acc j H; cbn in H; [auto|].
  destruct (IH _ _ _ H) as [Hacc|(x & Hk & Hx & Hm)].
  - destruct (name_is name fi) eqn:E; [|auto].
    injection Hacc as <-. right. exists fi. rewrite Nat.sub_diag. auto.
  - right. exists x. split; [lia|]. split; [|exact Hm].
    replace (j - k) with (S (j - S k)) by lia. exact Hx.
Qed.

Lemma touches_only_answers name t t' n' :
  touches_only name t t' -> n' <> name ->
  fst (get n' t') = fst (get n' t) /\ fst (empty t') = fst (empty t).
Proof.
  intros [Hd|(items & files & i & fi & fi' & Hd & Hloop & Hi & Hn & Hd')] Hne.
  - unfold get, empty. run. rewrite Hd. destruct (data_files (data t)); auto.
  - unfold get, empty. run. rewrite Hd, Hd'. unfold data_files. cbn.
    rewrite length_insert. split; [|reflexivity]. f_equal.
    rewrite (get_loop_insert n' files i fi fi' 0 None Hi Hn).
    destruct (get_loop n' files 0 None) as [j|] eqn:Hj; [|reflexivity]. cbn.
    destruct (decide (i = j)) as [->|Hij]; [|apply list_lookup_insert_ne; exact Hij].
    exfalso.
    destruct (get_loop_Some _ _ _ _ _ Hj) as [|(x & _ & Hx & Hm)]; [discriminate|].
    destruct (get_loop_Some _ _ _ _ _ Hloop) as [|(y & _ & Hy & Hm')]; [discriminate|].
    rewrite Nat.sub_0_r in Hx, Hy. rewrite Hi in Hx, Hy.
    injection Hx as <-. injection Hy as <-.
    unfold name_is in Hm, Hm'. apply py_eq_str in Hm, Hm'. congruence.
Qed.

(** X19. The three mutators work on the record [get(name)] returns and
    on no other: after [add_image_info], [add_chapter_info] or
    [toggle_complete] on [name], whether the call returned or raised,
    [get] of every other name and [empty] answer as before. *)
Theorem mutators_leave_other_names (t : DownloadTracker) (name n' : string) :
  n' <> name ->
  (forall img_name hash chap_id,
      fst (get n' (snd (add_image_info name img_name hash chap_id t))) = fst (get n' t)
      /\ fst (empty (snd (add_image_info name img_name hash chap_id t))) = fst (empty t))
  /\ (forall chapter_name chapter_id,
        fst (get n' (snd (add_chapter_info name chapter_name chapter_id t))) = fst (get n' t)
        /\ fst (empty (snd (add_chapter_info name chapter_name chapter_id t))) = fst (empty t))
  /\ (forall is_complete,
        fst (get n' (snd (toggle_complete name is_complete t))) = fst (get n' t)
        /\ fst (empty (snd (toggle_complete name is_complete t))) = fst (empty t)).
Proof.
  intros Hne. repeat split; intros;
    eapply touches_only_answers;
    eauto using touches_only_add_image_info, touches_only_add_chapter_info,
      touches_only_toggle_complete.
Qed.

Lemma mutators_leave_other_names_witness :
  fst (get "Y" (snd (toggle_complete "X" true (sample_tracker false sample_files))))
  = fst (get "Y" (sample_tracker false sample_files)).
Proof.
  assert ("Y" <> "X") as Hne by discriminate.
  exact (proj1 (proj2 (proj2 (mutators_leave_other_names
                                (sample_tracker false sample_files) "X" "Y" Hne)) true)).
Defined.

(** ** Images of a file stay distinct *)

Lemma remove_append_NoDup images img_name hash chap_id :
  NoDup images ->
  NoDup (default images (py_remove ImageInfo_eq (new_image img_name hash chap_id) images)
         ++ [new_image img_name hash chap_id]).
Proof.
  intros Hnd. set (im := new_image img_name hash chap_id).
  pose proof (py_remove_spec ImageInfo_eq im images) as R.
  destruct (py_remove ImageInfo_eq im images) as [l'|]; cbn [from_option]; unfold id.
  - destruct R as (l1 & e & l2 & -> & -> & He & _).
    apply ImageInfo_eq_new in He. subst e.
    apply NoDup_app in Hnd as (H1 & H12 & H2). apply NoDup_cons in H2 as [Hn2 H2].
    apply NoDup_app. split; [|split].
    + apply NoDup_app. split; [exact H1|]. split; [|exact H2].
      intros x Hx Hx2. apply (H12 x Hx). apply elem_of_cons. auto.
    + intros x Hx Him. apply list_elem_of_singleton in Him. subst x.
      apply elem_of_app in Hx as [Hx|Hx]; [|contradiction].
      apply (H12 im Hx). apply elem_of_cons. auto.
    + apply NoDup_singleton.
  - apply NoDup_app. split; [exact Hnd|]. split; [|apply NoDup_singleton].
    intros x Hx Him. apply list_elem_of_singleton in Him. subst x.
    rewrite List.Forall_forall in R. apply list_elem_of_In in Hx.
    specialize (R im Hx). cbn beta in R.
    assert (ImageInfo_eq im im = true) by (apply ImageInfo_eq_new; reflexivity).
    congruence.
Qed.

(** X20. [add_image_info] keeps the images of a file free of repeats:
    on a file in whose images no record occurs twice and whose image
    names, the new one included, all carry a page number, the call
    succeeds and the record [get(name)] returns afterwards has under
    [images] a list that holds the new record, every old record, nothing
    else, and no record twice; its other attributes are as before. *)
Theorem add_image_info_no_repeats (t : DownloadTracker) (name img_name hash chap_id : string)
    (fi : FileInfo) (images : list ImageInfo) (keys : list Z) :
  get name t = (Ok (Some fi), t) ->
  fi_images fi = Some images ->
  mapM (M := res) get_page_image (images ++ [new_image img_name hash chap_id]) = Ok keys ->
  NoDup images ->
  exists t' fi' images',
    add_image_info name img_name hash chap_id t = (Ok tt, t')
    /\ get name t' = (Ok (Some fi'), t')
    /\ fi_images fi' = Some images'
    /\ same_but_images fi fi'
    /\ NoDup images'
    /\ In (new_image img_name hash chap_id) images'
    /\ (forall im, In im images -> In im images')
    /\ forall im, In im images' -> In im images \/ im = new_image img_name hash chap_id.
Proof.
  intros Hget Him Hkeys Hnd.
  assert (Hpages : Forall (fun x => exists k, get_page_image x = Ok k)
                     (default images
                        (py_remove ImageInfo_eq (new_image img_name hash chap_id) images)
                      ++ [new_image img_name hash chap_id])).
  { apply remove_append_pages. apply mapM_res_Forall. eauto. }
  destruct (proj2 (mapM_res_Forall _ _) Hpages) as [keys2 Hkeys2].
  destruct (add_image_info_run t name img_name hash chap_id fi images keys2 Hget Him Hkeys2)
    as (t' & images' & pages & Hrun & Hget' & Hperm & _ & _).
  exists t', (with_images fi images'), images'.
  split; [exact Hrun|]. split; [exact Hget'|]. split; [reflexivity|].
  split; [repeat split|]. split; [|split; [|split]].
  - rewrite Hperm. apply remove_append_NoDup. exact Hnd.
  - apply list_elem_of_In. rewrite Hperm. apply elem_of_app. right.
    apply list_elem_of_singleton. reflexivity.
  - intros im Hin. apply list_elem_of_In. rewrite Hperm. apply list_elem_of_In.
    exact (remove_append_keeps (new_image img_name hash chap_id) im images
             img_name hash chap_id eq_refl Hin).
  - intros im Hin. apply list_elem_of_In in Hin. rewrite Hperm in Hin.
    apply elem_of_app in Hin as [Hin|Hin].
    + left. apply list_elem_of_In.
      pose proof (py_remove_spec ImageInfo_eq (new_image img_name hash chap_id) images) as R.
      destruct (py_remove ImageInfo_eq _ images) as [l'|]; cbn [from_option] in Hin;
        unfold id in Hin; [|exact Hin].
      destruct R as (l1 & e & l2 & -> & -> & _ & _).
      apply elem_of_app in Hin as [Hin|Hin]; apply elem_of_app; [left; exact Hin|right].
      apply elem_of_cons. right. exact Hin.
    + right. apply list_elem_of_singleton in Hin. exact Hin.
Qed.

Lemma add_image_info_no_repeats_witness :
  exists t' fi' images',
    add_image_info "Ch.1" "1.png" "h1" "abc" (sample_tracker false [sample_chapter_1])
    = (Ok tt, t')
    /\ get "Ch.1" t' = (Ok (Some fi'), t')
    /\ fi_images fi' = Some images'
    /\ NoDup images'
    /\ In (new_image "1.png" "h1" "abc") images'.
Proof.
  destruct (add_image_info_no_repeats (sample_tracker false [sample_chapter_1])
              "Ch.1" "1.png" "h1" "abc" sample_chapter_1
              [new_image "1.png" "h1" "abc"] [1; 1]%Z eq_refl eq_refl eq_refl)
    as (t' & fi' & images' & H1 & H2 & H3 & _ & H4 & H5 & _).
  - apply NoDup_singleton.
  - exists t', fi', images'. auto 10.
Defined.

(** ** Effects of the mutators *)

(** X21. A mutator's only effect is one queued write: a call of
    [add_file_info], [add_image_info], [add_chapter_info] or
    [toggle_complete] either leaves the effects of the tracker as they
    were, which is what every call that raises does, or it returned with
    tracking on and queued exactly one job; none of them writes or
    deletes a file itself. *)
Theorem mutators_at_most_one_write (t : DownloadTracker) :
  (forall name id hash null_images null_chapters,
      at_most_one_write t (add_file_info name id hash null_images null_chapters t))
  /\ (forall name img_name hash chap_id,
        at_most_one_write t (add_image_info name img_name hash chap_id t))
  /\ (forall name chapter_name chapter_id,
        at_most_one_write t (add_chapter_info name chapter_name chapter_id t))
  /\ (forall name is_complete, at_most_one_write t (toggle_complete name is_complete t)).
Proof.
  unfold at_most_one_write.
  destruct t as [nt [|items [files|]] tr]; repeat split; intros; try (left; reflexivity).
  - unfold add_file_info, _write. destruct null_images, null_chapters; run;
      unfold data_files; cbn; destruct nt; cbn; eauto 10.
  - unfold add_image_info, get_object, set_file, _write. run. unfold data_files. cbn.
    destruct (get_loop name files 0 None) as [i|]; [|left; reflexivity].
    destruct (files !! i) as [fi|]; [|left; reflexivity].
    cbn. destruct (fi_images fi) as [images|]; [|left; reflexivity].
    cbn. unfold data_files. cbn.
    match goal with |- context [sorted ?l ?k] => destruct (sorted l k) as [images3|e] end;
      [|left; reflexivity].
    cbn. unfold data_files. cbn. destruct nt; cbn; eauto 10.
  - unfold add_chapter_info, get_object, set_file, _write. run. unfold data_files. cbn.
    destruct (get_loop name files 0 None) as [i|]; [|left; reflexivity].
    destruct (files !! i) as [fi|]; [|left; reflexivity].
    cbn. destruct (fi_chapters fi) as [chapters|]; [|left; reflexivity].
    destruct (py_in ChapterInfo_eq_str chapter_id chapters); [left; reflexivity|].
    cbn. unfold data_files. cbn. destruct nt; cbn; eauto 10.
  - unfold toggle_complete, get_object, set_file, _write. run. unfold data_files. cbn.
    destruct (get_loop name files 0 None) as [i|]; [|left; reflexivity].
    destruct (files !! i) as [fi|]; [|left; reflexivity].
    cbn. unfold data_files. cbn. destruct nt; cbn; eauto 10.
Qed.

(** ** Warnings of the validation pass *)

Lemma duplicate_warnings_positions l : forall new_files earlier,
  covers new_files earlier ->
  duplicate_warnings l (length earlier) new_files
  = map log_warning (repeat_positions earlier l).
Proof.
  induction l as [|x l IH]; intros new_files earlier Hc; [reflexivity|].
  cbn [duplicate_warnings repeat_positions]. rewrite (covers_py_in _ _ x Hc).
  destruct (py_in FileInfo_eq x earlier) eqn:E.
  - rewrite <- (covers_py_in _ _ x Hc) in E. cbn [app map]. f_equal.
    rewrite <- (IH new_files (earlier ++ [x]) (covers_skip _ _ _ Hc E)).
    rewrite length_app, Nat.add_1_r. reflexivity.
  - cbn [app].
    rewrite <- (IH (new_files ++ [x]) (earlier ++ [x]) (covers_keep _ _ x Hc)).
    rewrite length_app, Nat.add_1_r. reflexivity.
Qed.

Lemma repeat_positions_bounds l : forall earlier,
  Forall (fun p => length earlier <= p < length (earlier ++ l)) (repeat_positions earlier l).
Proof.
  induction l as [|x l IH]; intros earlier; cbn [repeat_positions]; [constructor|].
  apply Forall_app. split.
  - destruct (py_in _ _ _); constructor; [|constructor].
    rewrite length_app. cbn. lia.
  - specialize (IH (earlier ++ [x])). rewrite <- app_assoc in IH. cbn [app] in IH.
    eapply Forall_impl; [exact IH|]. cbn. intros p. rewrite length_app. cbn. lia.
Qed.

Lemma repeat_positions_sorted l : forall earlier,
  StronglySorted lt (repeat_positions earlier l).
Proof.
  induction l as [|x l IH]; intros earlier; cbn [repeat_positions]; [constructor|].
  pose proof (repeat_positions_bounds l (earlier ++ [x])) as B.
  destruct (py_in _ _ _); cbn [app]; [|apply IH].
  constructor; [apply IH|].
  eapply Forall_impl; [exact B|]. cbn. intros p. rewrite length_app. cbn. lia.
Qed.

Lemma repeat_positions_spec l : forall earlier p,
  In p (repeat_positions earlier l) <->
  length earlier <= p < length (earlier ++ l)
  /\ exists j y x, j < p /\ (earlier ++ l) !! j = Some y /\ (earlier ++ l) !! p = Some x
                   /\ FileInfo_eq y x = true.
Proof.
  induction l as [|x l IH]; intros earlier p; cbn [repeat_positions].
  - rewrite app_nil_r. split; [intros []|intros [? _]; lia].
  - rewrite in_app_iff, IH, <- app_assoc. cbn [app].
    rewrite length_app. cbn [length].
    assert (Hx : (earlier ++ x :: l) !! length earlier = Some x).
    { rewrite lookup_app_r by lia. rewrite Nat.sub_diag. reflexivity. }
    split.
    + intros [Hp|[Hb Hp]]; [|split; [lia|exact Hp]].
      destruct (py_in FileInfo_eq x earlier) eqn:E; [|destruct Hp].
      destruct Hp as [<-|[]]. split; [rewrite length_app; cbn; lia|].
      apply py_in_true in E as (e & He & Hex).
      apply list_elem_of_In, list_elem_of_lookup_1 in He as [j Hj].
      pose proof (lookup_lt_Some _ _ _ Hj) as Hlt.
      exists j, e, x. split; [exact Hlt|]. split; [|auto].
      rewrite lookup_app_l by lia. exact Hj.
    + intros [Hb Hp]. destruct (decide (p = length earlier)) as [->|Hne].
      * left. destruct Hp as (j & y & x' & Hj & Hy & Hx' & Heq).
        rewrite Hx in Hx'. injection Hx' as <-.
        rewrite lookup_app_l in Hy by lia.
        assert (py_in FileInfo_eq x earlier = true) as ->.
        { apply py_in_true. exists y. split; [|exact Heq].
          apply list_elem_of_In. eapply list_elem_of_lookup_2. exact Hy. }
        left. reflexivity.
      * right. split; [lia|exact Hp].
Qed.

(** X22. One warning per dropped entry: when every entry constructs,
    what the validation pass logs is a warning for each position whose
    record has an equal record before it, in increasing order of
    position, and nothing else; the tracker's data is not touched by the
    pass itself. *)
Theorem check_data_warnings (data0 fv : json) (entries : list json)
    (recs : list FileInfo) (t : DownloadTracker) :
  subscript data0 "files" = Ok fv ->
  py_iter fv = Ok entries ->
  mapM (M := res) _FileInfo entries = Ok recs ->
  exists positions,
    snd (_check_data data0 t) = with_trace t (data t) (map log_warning positions)
    /\ StronglySorted lt positions
    /\ forall p, In p positions <->
                 p < length recs
                 /\ exists j y x, j < p /\ recs !! j = Some y /\ recs !! p = Some x
                                  /\ FileInfo_eq y x = true.
Proof.
  intros H1 H2 H3. exists (repeat_positions [] recs).
  split; [|split; [apply repeat_positions_sorted|]].
  - rewrite (check_data_ok data0 fv entries recs t H1 H2 H3). cbn [snd].
    rewrite <- (duplicate_warnings_positions recs [] [] covers_nil). reflexivity.
  - intros p. rewrite repeat_positions_spec. cbn [app length].
    split; intros [Hb Hp]; (split; [lia|exact Hp]).
Qed.

Lemma check_data_warnings_witness :
  exists positions,
    snd (_check_data
           (JObj [("files", JArr [sample_entry "B" "b"; sample_entry "A" "a";
                                  sample_entry "B" "b"])])
           (sample_tracker false []))
    = with_trace (sample_tracker false []) (data (sample_tracker false []))
        (map log_warning positions)
    /\ StronglySorted lt positions.
Proof.
  destruct (check_data_warnings
    (JObj [("files", JArr [sample_entry "B" "b"; sample_entry "A" "a"; sample_entry "B" "b"])])
    (JArr [sample_entry "B" "b"; sample_entry "A" "a"; sample_entry "B" "b"])
    [sample_entry "B" "b"; sample_entry "A" "a"; sample_entry "B" "b"]
    [sample_file "B" "b"; sample_file "A" "a"; sample_file "B" "b"]
    (sample_tracker false []) eq_refl eq_refl eq_refl)
    as (positions & H1 & H2 & _).
  exists positions. split; assumption.
Defined.

(** ** A ["files"] value that is not a list *)

(** X23. The validation pass iterates over whatever stands under
    ["files"].  A str or dict there is accepted when it is empty, and
    the load then ends with an empty files list; [None], a bool, an int,
    or a str or dict that is not empty make the load raise
    [TypeError]. *)
Theorem load_files_not_a_list (d : list (string * json)) (fv : json) :
  assoc "files" d = Some fv ->
  (forall l, fv <> JArr l) ->
  (fv = JStr EmptyString \/ fv = JObj [] ->
     __init__ false (Document (JObj d))
     = (Ok tt, {| no_track := false; data := PyDict (other_items (JObj d)) (Some []);
                  trace := [queue_start; queue_submit] |}))
  /\ (fv <> JStr EmptyString -> fv <> JObj [] ->
      fst (__init__ false (Document (JObj d))) = Raise TypeError).
Proof.
  intros Hd Hl. split.
  - intros [-> | ->]; unfold __init__, _load, _check_data, subscript; rewrite Hd; reflexivity.
  - intros Hs Ho. unfold __init__, _load, _check_data, subscript. rewrite Hd.
    destruct fv as [|b|z|s|l|o]; try reflexivity.
    + destruct s as [|c s]; [congruence|reflexivity].
    + destruct (Hl l eq_refl).
    + destruct o as [|[k v] o]; [congruence|reflexivity].
Qed.

Lemma load_files_not_a_list_witness :
  __init__ false (Document (JObj [("files", JObj [])]))
  = (Ok tt, {| no_track := false; data := PyDict [] (Some []);
               trace := [queue_start; queue_submit] |})
  /\ fst (__init__ false (Document (JObj [("files", JNull)]))) = Raise TypeError.
Proof.
  split.
  - refine (proj1 (load_files_not_a_list [("files", JObj [])] (JObj []) eq_refl _)
              (or_intror eq_refl)).
    discriminate.
  - refine (proj2 (load_files_not_a_list [("files", JNull)] JNull eq_refl _) _ _);
      discriminate.
Defined.
